(** * Student performance aggregation engine: [data_processor.py]

    A shallow embedding of [extract_subject_from_title] and
    [process_student_data], and the properties of the aggregation engine
    stated in the design specification.

    Conventions of the embedding.
    - A decoded JSON document is a value of [json]; a Python [dict] read
      from JSON is the list of its items, looked up by key.
    - Python exceptions are the [Raise] results of the [result] monad.
    - Text is a Rocq [string]; [str.lower], [str.capitalize] and the regular
      expression class [\w] are those of the ASCII range, in which all the
      literals of the program live.
    - Numbers are exact rationals ([Q]); [round(x, 2)] is rounding of the
      exact value to two decimals, ties to even.  A mean that pandas reports
      as NaN is [None].
    - A pandas [DataFrame] built from a list of row dictionaries is the list
      of its rows; a frame without rows has no columns, and reading a column
      of it raises [KeyError]. *)

From Stdlib Require Import Ascii QArith Qround DecimalString DecimalPos DecimalZ Sorted.
From stdpp Require Import base option list strings gmap fin_maps.

Local Open Scope string_scope.
Local Open Scope Z_scope.

(** ** JSON values and Python exceptions *)

#[local] Set Warnings "-register-all".

Inductive json : Type :=
| JNull
| JBool (b : bool)
| JNum (q : Q)
| JStr (s : string)
| JArr (xs : list json)
| JObj (items : list (string * json)).

Inductive exn : Type :=
| AttributeError
| TypeError
| KeyError (k : string)
| OutsideModel.

Inductive result (A : Type) : Type :=
| Ok (a : A)
| Raise (e : exn).
Arguments Ok {A} a.
Arguments Raise {A} e.

#[export] Instance result_ret : MRet result := fun A a => Ok a.
#[export] Instance result_bind : MBind result := fun A B f m =>
  match m with Ok a => f a | Raise e => Raise e end.

Fixpoint mapM_result {A B} (f : A -> result B) (xs : list A) : result (list B) :=
  match xs with
  | [] => Ok []
  | x :: xs' => y ← f x; ys ← mapM_result f xs'; Ok (y :: ys)
  end.

(** ** Python primitives *)

Module Py.

(** [bool(v)] *)
Definition truthy (v : json) : bool :=
  match v with
  | JNull => false
  | JBool b => b
  | JNum q => negb (Qeq_bool q 0)
  | JStr s => negb (String.eqb s "")
  | JArr xs => match xs with [] => false | _ => true end
  | JObj items => match items with [] => false | _ => true end
  end.

Fixpoint assoc (k : string) (items : list (string * json)) : option json :=
  match items with
  | [] => None
  | (k', v) :: rest => if String.eqb k k' then Some v else assoc k rest
  end.

(** [d.get(k, dflt)]; only a dict has the method. *)
Definition get (d : json) (k : string) (dflt : json) : result json :=
  match d with
  | JObj items => Ok (default dflt (assoc k items))
  | _ => Raise AttributeError
  end.

(** [for x in v] *)
Definition chars (s : string) : list json :=
  (fun c => JStr (String c "")) <$> String.list_ascii_of_string s.

Definition iter (v : json) : result (list json) :=
  match v with
  | JArr xs => Ok xs
  | JObj items => Ok ((fun kv => JStr kv.1) <$> items)
  | JStr s => Ok (chars s)
  | _ => Raise TypeError
  end.

Definition in_range (lo hi : N) (c : ascii) : bool :=
  (N.leb lo (N_of_ascii c) && N.leb (N_of_ascii c) hi)%N.

Definition is_upper (c : ascii) : bool := in_range 65 90 c.
Definition is_lower (c : ascii) : bool := in_range 97 122 c.
Definition is_digit (c : ascii) : bool := in_range 48 57 c.

Definition lower_char (c : ascii) : ascii :=
  if is_upper c then ascii_of_N (N_of_ascii c + 32) else c.
Definition upper_char (c : ascii) : ascii :=
  if is_lower c then ascii_of_N (N_of_ascii c - 32) else c.

Fixpoint lower (s : string) : string :=
  match s with
  | EmptyString => EmptyString
  | String c r => String (lower_char c) (lower r)
  end.

(** [s.capitalize()]: first character upper case, the rest lower case. *)
Definition capitalize (s : string) : string :=
  match s with
  | EmptyString => EmptyString
  | String c r => String (upper_char c) (lower r)
  end.

(** The methods exist on [str] only. *)
Definition str_lower (v : json) : result string :=
  match v with JStr s => Ok (lower s) | _ => Raise AttributeError end.
Definition str_capitalize (v : json) : result string :=
  match v with JStr s => Ok (capitalize s) | _ => Raise AttributeError end.

End Py.

(** ** The three regular expressions of [extract_subject_from_title] *)

Module Re.

(** [\w] *)
Definition is_word (c : ascii) : bool :=
  Py.is_lower c || Py.is_upper c || Py.is_digit c || Ascii.eqb c "_".

Definition is_word_opt (c : option ascii) : bool :=
  match c with Some c => is_word c | None => false end.

Definition head (s : string) : option ascii :=
  match s with EmptyString => None | String c _ => Some c end.

(** [\b] between the character before and the character after a position. *)
Definition boundary (before after : option ascii) : bool :=
  xorb (is_word_opt before) (is_word_opt after).

(** A literal: consumes [w] from the front of [s]; gives the last
    character consumed (or the one before, when [w] is empty) and the
    rest of the subject. *)
Fixpoint lit (w : string) (prev : option ascii) (s : string)
  : option (option ascii * string) :=
  match w with
  | EmptyString => Some (prev, s)
  | String a w' =>
      match s with
      | EmptyString => None
      | String c s' => if Ascii.eqb a c then lit w' (Some c) s' else None
      end
  end.

(** [\b w (a1|a2|...)? \b] tried at one position; an empty list of
    alternatives is the plain [\b w \b]. *)
Definition word_at (w : string) (alts : list string)
    (prev : option ascii) (s : string) : bool :=
  boundary prev (head s) &&
  match lit w prev s with
  | Some (p1, r1) =>
      existsb (fun a =>
        match lit a p1 r1 with
        | Some (p2, r2) => boundary p2 (head r2)
        | None => false
        end) (alts ++ [""])
  | None => false
  end.

(** [re.search]: the pattern is tried at every position, left to right. *)
Fixpoint search_from (pat : option ascii -> string -> bool)
    (prev : option ascii) (s : string) : bool :=
  pat prev s ||
  match s with
  | EmptyString => false
  | String c r => search_from pat (Some c) r
  end.

Definition search (pat : option ascii -> string -> bool) (s : string) : bool :=
  search_from pat None s.

Definition physics := word_at "physics" [].
Definition chemistry := word_at "chemistry" [].
Definition math := word_at "math" ["s"; "ematics"].

End Re.

(** ** [extract_subject_from_title] *)

Definition is_str (v : json) : bool :=
  match v with JStr _ => true | _ => false end.

Definition extract_subject_from_title (section_title : json) : string :=
  if negb (Py.truthy section_title) || negb (is_str section_title)
  then "Unknown Subject"
  else
    match section_title with
    | JStr s =>
        let title_lower := Py.lower s in
        if Re.search Re.physics title_lower then "Physics"
        else if Re.search Re.chemistry title_lower then "Chemistry"
        else if Re.search Re.math title_lower then "Maths"
        else "Other Subjects"
    | _ => "Unknown Subject"
    end.

(** ** Flattening the questions of every section *)

(** One entry of [all_questions_list], as the dictionary is built. *)
Record raw_row := RawRow {
  raw_subject : string;
  raw_chapter : json;
  raw_difficulty : string;
  raw_concepts : list json;
  raw_status : string;
  raw_time_taken_seconds : json }.

Definition is_list (v : json) : bool :=
  match v with JArr _ => true | _ => false end.

(** [[x.get("title") for x in v if x.get("title")]] *)
Definition titles (v : json) : result (list json) :=
  xs ← Py.iter v;
  ts ← mapM_result (fun x => Py.get x "title" JNull) xs;
  Ok (List.filter Py.truthy ts).

(** The loop over [markedOptions], left at the first option flagged
    correct. *)
Fixpoint any_marked_correct (opts : list json) : result bool :=
  match opts with
  | [] => Ok false
  | opt :: rest =>
      c ← Py.get opt "isCorrect" JNull;
      if Py.truthy c then Ok true else any_marked_correct rest
  end.

Definition final_status (q_status_from_json : string) (is_marked_correct : bool)
  : string :=
  if String.eqb q_status_from_json "answered"
  then (if is_marked_correct then "Correct" else "Incorrect")
  else "Unattempted".

Definition flatten_question (subject_name_for_section : string) (q_data : json)
  : result raw_row :=
  question_detail ← Py.get q_data "questionId" (JObj []);
  chs ← Py.get question_detail "chapters" (JArr []);
  chapters ← titles chs;
  let primary_chapter :=
    match chapters with c :: _ => c | [] => JStr "Unknown Chapter" end in
  cos ← Py.get question_detail "concepts" (JArr []);
  concepts ← titles cos;
  level ← Py.get question_detail "level" (JStr "Unknown Difficulty");
  difficulty ← Py.str_capitalize level;
  marked ← Py.get q_data "markedOptions" JNull;
  by_option ←
    (if Py.truthy marked && is_list marked
     then opts ← Py.iter marked; any_marked_correct opts
     else Ok false);
  input_value ← Py.get q_data "inputValue" (JObj []);
  input_correct ← Py.get input_value "isCorrect" JNull;
  let is_marked_correct_by_system := by_option || Py.truthy input_correct in
  st ← Py.get q_data "status" (JStr "notAnswered");
  q_status_from_json ← Py.str_lower st;
  time_taken ← Py.get q_data "timeTaken" (JNum 0);
  Ok {| raw_subject := subject_name_for_section;
        raw_chapter := primary_chapter;
        raw_difficulty := difficulty;
        raw_concepts := concepts;
        raw_status := final_status q_status_from_json is_marked_correct_by_system;
        raw_time_taken_seconds := time_taken |}.

Definition flatten_section (section : json) : result (list raw_row) :=
  section_id_info ← Py.get section "sectionId" (JObj []);
  section_title ← Py.get section_id_info "title" (JStr "Unknown Section");
  let subject_name_for_section := extract_subject_from_title section_title in
  questions ← Py.get section "questions" (JArr []);
  qs ← Py.iter questions;
  mapM_result (flatten_question subject_name_for_section) qs.

Definition flatten_sections (sections : list json) : result (list raw_row) :=
  rows ← mapM_result flatten_section sections;
  Ok (concat rows).

(** ** The frame of flattened questions *)

(** A row of [questions_df].  The pandas operations are embedded for the
    column types of the data model: chapter and concept titles are text
    and the time is a number; anything else is [OutsideModel]. *)
Record row := Row {
  subject : string;
  chapter : string;
  difficulty : string;
  concepts : list string;
  status : string;
  time_taken_seconds : Q }.

Definition as_str (v : json) : result string :=
  match v with JStr s => Ok s | _ => Raise OutsideModel end.
Definition as_num (v : json) : result Q :=
  match v with JNum q => Ok q | _ => Raise OutsideModel end.

Definition typed_row (r : raw_row) : result row :=
  ch ← as_str (raw_chapter r);
  cs ← mapM_result as_str (raw_concepts r);
  t ← as_num (raw_time_taken_seconds r);
  Ok {| subject := raw_subject r; chapter := ch; difficulty := raw_difficulty r;
        concepts := cs; status := raw_status r; time_taken_seconds := t |}.

(** [pd.DataFrame(all_questions_list)] *)
Definition DataFrame (rows : list raw_row) : result (list row) :=
  mapM_result typed_row rows.

(** [df[name]]: a frame without rows has no columns. *)
Definition column {A} (name : string) (f : row -> A) (df : list row)
  : result (list A) :=
  match df with
  | [] => Raise (KeyError name)
  | _ => Ok (f <$> df)
  end.

(** [sum(col == s)] *)
Definition count_eq (s : string) (col : list string) : nat :=
  length (filter (fun x => x = s) col).

Definition Qsum (xs : list Q) : Q := foldr Qplus 0%Q xs.
Definition Qnat (n : nat) : Q := inject_Z (Z.of_nat n).

(** [Series.mean()]; [None] is NaN. *)
Definition mean (xs : list Q) : option Q :=
  match xs with
  | [] => None
  | _ => Some (Qsum xs / Qnat (length xs))%Q
  end.

Definition round_half_even (q : Q) : Z :=
  let n := Qnum q in
  let d := Zpos (Qden q) in
  let f := n / d in
  let r2 := 2 * (n mod d) in
  if r2 <? d then f
  else if d <? r2 then f + 1
  else if Z.even f then f else f + 1.

(** [round(x, 2)] *)
Definition round2 (q : Q) : Q := Qred (round_half_even (q * 100) # 100).

(** [df.groupby(key)]: the rows of each key, in the order of the frame. *)
Definition groupby (key : row -> string) (df : list row)
  : gmap string (list row) :=
  foldr (fun r m => <[key r := r :: default [] (m !! key r)]> m) ∅ df.

(** ** The result of the engine *)

Record GroupSummary := Group {
  total_questions : nat;
  correct_answers : nat;
  accuracy_percent : Q;
  average_time_seconds : option Q }.

Record OverallSummary := Overall {
  score : json;
  overall_accuracy_percent : Q;
  overall_correct_answers : nat;
  incorrect_answers : nat;
  unattempted_answers : nat;
  attempted_answers : nat;
  total_questions_in_test : nat;
  official_total_questions_header : json;
  total_marks_in_test : json;
  overall_time_taken_seconds : json }.

Record TimeAccuracy := TimeAcc {
  avg_time_per_correct_q_seconds : Q;
  avg_time_per_incorrect_q_seconds : Q }.

(** A formatted string literal: its literal parts and the values put in. *)
Inductive fpart : Type :=
| Lit (s : string)
| Interp (v : json).

Record Analysis := Result {
  student_name : json;
  test_name : list fpart;
  overall_summary : option OverallSummary;
  subject_performance : gmap string GroupSummary;
  chapter_performance : gmap string GroupSummary;
  difficulty_performance : gmap string GroupSummary;
  concept_performance : gmap string GroupSummary;
  time_accuracy_summary : option TimeAccuracy;
  raw_questions_df : list row }.

(** ** The aggregation passes of [process_student_data] *)

Definition percent (correct total : nat) : Q :=
  ((Qnat correct / Qnat total) * 100)%Q.

Definition make_overall (data test_info : json) (questions_df : list row)
  : result OverallSummary :=
  let total_questions_in_df := length questions_df in
  st ← column "status" status questions_df;
  let total_correct_in_df := count_eq "Correct" st in
  let total_incorrect_in_df := count_eq "Incorrect" st in
  let total_unattempted_in_df := count_eq "Unattempted" st in
  let total_attempted_in_df := (total_correct_in_df + total_incorrect_in_df)%nat in
  let overall_accuracy_calculated :=
    if (0 <? total_questions_in_df)%nat
    then percent total_correct_in_df total_questions_in_df
    else 0%Q in
  official_total_questions ←
    Py.get test_info "totalQuestions" (JNum (Qnat total_questions_in_df));
  sc ← Py.get data "totalMarkScored" JNull;
  tm ← Py.get test_info "totalMarks" JNull;
  tt ← Py.get data "totalTimeTaken" JNull;
  Ok {| score := sc;
        overall_accuracy_percent := round2 overall_accuracy_calculated;
        overall_correct_answers := total_correct_in_df;
        incorrect_answers := total_incorrect_in_df;
        unattempted_answers := total_unattempted_in_df;
        attempted_answers := total_attempted_in_df;
        total_questions_in_test := total_questions_in_df;
        official_total_questions_header := official_total_questions;
        total_marks_in_test := tm;
        overall_time_taken_seconds := tt |}.

Definition EXPECTED_QUESTIONS_PER_SUBJECT : gmap string nat :=
  <["Maths" := 25%nat]> (<["Chemistry" := 25%nat]> (<["Physics" := 25%nat]> ∅)).

Definition is_empty (df : list row) : bool :=
  match df with [] => true | _ => false end.

(** The body of the loop over the three subjects. *)
Definition subject_summary (groups : gmap string (list row)) (subject : string)
  : result GroupSummary :=
  let group_df := default [] (groups !! subject) in
  let total_expected :=
    default (length group_df) (EXPECTED_QUESTIONS_PER_SUBJECT !! subject) in
  st ← column "status" status group_df;
  let count_correct := count_eq "Correct" st in
  avg_time ←
    (if negb (is_empty group_df)
     then ts ← column "time_taken_seconds" time_taken_seconds group_df; Ok (mean ts)
     else Ok (Some 0%Q));
  Ok {| total_questions := total_expected;
        correct_answers := count_correct;
        accuracy_percent :=
          round2 (if (0 <? total_expected)%nat
                  then percent count_correct total_expected else 0%Q);
        average_time_seconds := round2 <$> avg_time |}.

Fixpoint subject_loop (groups : gmap string (list row)) (subjects : list string)
    (subject_performance : gmap string GroupSummary)
  : result (gmap string GroupSummary) :=
  match subjects with
  | [] => Ok subject_performance
  | subject :: rest =>
      g ← subject_summary groups subject;
      subject_loop groups rest (<[subject := g]> subject_performance)
  end.

Definition make_subject_performance (questions_df : list row)
  : result (gmap string GroupSummary) :=
  if negb (is_empty questions_df)
  then subject_loop (groupby subject questions_df)
         ["Physics"; "Chemistry"; "Maths"] ∅
  else Ok ∅.

(** The body of the loops over the chapter and the difficulty groups.  A
    group handed out by [groupby] has at least one row, so that its
    columns exist. *)
Definition group_summary (group_df : list row) : GroupSummary :=
  let count_total := length group_df in
  let count_correct := count_eq "Correct" (status <$> group_df) in
  let accuracy :=
    if (0 <? count_total)%nat then percent count_correct count_total else 0%Q in
  let avg_time :=
    if (0 <? count_total)%nat then mean (time_taken_seconds <$> group_df)
    else Some 0%Q in
  {| total_questions := count_total;
     correct_answers := count_correct;
     accuracy_percent := round2 accuracy;
     average_time_seconds := round2 <$> avg_time |}.

(** [for name, group_df in df.groupby(key): if name == skip: continue; ...] *)
Definition grouped_performance (key : row -> string) (skip : string)
    (questions_df : list row) : gmap string GroupSummary :=
  if negb (is_empty questions_df)
  then group_summary <$>
         filter (fun kv => kv.1 ≠ skip) (groupby key questions_df)
  else ∅.

Definition make_chapter_performance :=
  grouped_performance chapter "Unknown Chapter".
Definition make_difficulty_performance :=
  grouped_performance difficulty "Unknown Difficulty".

(** The accumulator of the concept pass: the value type of
    [concept_performance_agg]. *)
Record ConceptAgg := Agg {
  agg_correct : nat;
  agg_total : nat;
  agg_time_taken_list : list Q }.

Definition agg_default : ConceptAgg := Agg 0 0 [].

Definition is_correct (r : row) : bool := String.eqb (status r) "Correct".

(** One round of the inner loop, for a concept that is not skipped. *)
Definition agg_add (r : row) (concept : string) (m : gmap string ConceptAgg)
  : gmap string ConceptAgg :=
  let a := default agg_default (m !! concept) in
  <[concept :=
      {| agg_correct := if is_correct r then S (agg_correct a) else agg_correct a;
         agg_total := S (agg_total a);
         agg_time_taken_list := agg_time_taken_list a ++ [time_taken_seconds r] |}]> m.

Definition agg_row (m : gmap string ConceptAgg) (r : row) : gmap string ConceptAgg :=
  foldl (fun m concept => if String.eqb concept "" then m else agg_add r concept m)
        m (concepts r).

Definition concept_agg (questions_df : list row) : gmap string ConceptAgg :=
  foldl agg_row ∅ questions_df.

(** The body of the loop over [concept_performance_agg.items()].  Every
    entry was created by a round of the inner loop, so that its time list
    is not empty. *)
Definition concept_summary (values : ConceptAgg) : GroupSummary :=
  let total := agg_total values in
  let correct := agg_correct values in
  let avg_time :=
    (Qsum (agg_time_taken_list values)
       / Qnat (length (agg_time_taken_list values)))%Q in
  {| total_questions := total;
     correct_answers := correct;
     accuracy_percent :=
       round2 (if (0 <? total)%nat then percent correct total else 0%Q);
     average_time_seconds := Some (round2 avg_time) |}.

Definition make_concept_performance (questions_df : list row)
  : gmap string GroupSummary :=
  if negb (is_empty questions_df)
  then concept_summary <$> concept_agg questions_df
  else ∅.

Definition with_status (s : string) (df : list row) : list row :=
  filter (fun r => status r = s) df.

(** [round(m, 2) if pd.notna(m) else 0] *)
Definition round2_or_zero (m : option Q) : Q :=
  match m with Some x => round2 x | None => 0%Q end.

Definition make_time_accuracy (questions_df : list row) : option TimeAccuracy :=
  if negb (is_empty questions_df)
  then
    let avg_time_correct_q :=
      mean (time_taken_seconds <$> with_status "Correct" questions_df) in
    let avg_time_incorrect_q :=
      mean (time_taken_seconds <$> with_status "Incorrect" questions_df) in
    Some {| avg_time_per_correct_q_seconds := round2_or_zero avg_time_correct_q;
            avg_time_per_incorrect_q_seconds := round2_or_zero avg_time_incorrect_q |}
  else None.

(** ** [process_student_data] *)

(** [data["sections"]] when the key is there and holds a list. *)
Definition sections_list (data : json) : option (list json) :=
  match data with
  | JObj items =>
      match Py.assoc "sections" items with
      | Some (JArr sections) => Some sections
      | _ => None
      end
  | _ => None
  end.

Definition minimal_result (student_name : json) (test_name : list fpart) : Analysis :=
  {| student_name := student_name;
     test_name := test_name;
     overall_summary := None;
     subject_performance := ∅;
     chapter_performance := ∅;
     difficulty_performance := ∅;
     concept_performance := ∅;
     time_accuracy_summary := None;
     raw_questions_df := [] |}.

(** Lines 97 to 205: from the flattened list to the result. *)
Definition aggregate (data test_info student_name : json) (test_name : list fpart)
    (all_questions_list : list raw_row) : result Analysis :=
  questions_df ← DataFrame all_questions_list;
  overall ← make_overall data test_info questions_df;
  by_subject ← make_subject_performance questions_df;
  Ok {| student_name := student_name;
        test_name := test_name;
        overall_summary := Some overall;
        subject_performance := by_subject;
        chapter_performance := make_chapter_performance questions_df;
        difficulty_performance := make_difficulty_performance questions_df;
        concept_performance := make_concept_performance questions_df;
        time_accuracy_summary := make_time_accuracy questions_df;
        raw_questions_df := questions_df |}.

(** The function returns [None] ([Ok None]), a result dictionary
    ([Ok (Some _)]) or raises. *)
Definition process_student_data (data : json) : result (option Analysis) :=
  if negb (Py.truthy data) then Ok None
  else
    test_info ← Py.get data "test" (JObj []);
    total_marks ← Py.get test_info "totalMarks" (JStr "N/A");
    let test_name :=
      [Lit "QPT Analysis (Total Marks: "; Interp total_marks; Lit ")"] in
    student_name ← Py.get data "student_name" (JStr "Valued Student");
    match sections_list data with
    | None => Ok (Some (minimal_result student_name test_name))
    | Some sections =>
        all_questions_list ← flatten_sections sections;
        res ← aggregate data test_info student_name test_name all_questions_list;
        Ok (Some res)
    end.

(** ** Sample records *)

Module Sample.

Definition question (chapter level : string) (concept_titles : list string)
    (st : string) (correct : bool) (t : Z) : json :=
  JObj [("questionId",
         JObj [("chapters", JArr [JObj [("title", JStr chapter)]]);
               ("concepts",
                JArr ((fun c => JObj [("title", JStr c)]) <$> concept_titles));
               ("level", JStr level)]);
        ("status", JStr st);
        ("markedOptions", JArr [JObj [("isCorrect", JBool correct)]]);
        ("timeTaken", JNum (inject_Z t))].

Definition section (title : string) (questions : list json) : json :=
  JObj [("sectionId", JObj [("title", JStr title)]);
        ("questions", JArr questions)].

(** The first scenario of the specification: a single Physics section. *)
Definition physics_only : json :=
  JObj [("student_name", JStr "A");
        ("sections",
         JArr [section "Physics Test"
                 [question "Kinematics" "easy" [] "answered" true 30]])].

Definition no_questions : json :=
  JObj [("student_name", JStr "A"); ("sections", JArr [])].

(** A question without [level] and without [timeTaken]. *)
Definition bare_question : json :=
  JObj [("questionId", JObj [("chapters", JArr [JObj [("title", JStr "Bonding")]])]);
        ("status", JStr "answered")].

Definition three_subjects : json :=
  JObj [("student_name", JStr "A");
        ("test", JObj [("totalMarks", JNum 300)]);
        ("sections",
         JArr [section "Physics Section 1"
                 [question "Kinematics" "easy" ["Vectors"; "Motion"] "answered" true 30;
                  question "Kinematics" "MEDIUM" ["Vectors"; "Forces"] "answered" false 10;
                  question "Optics" "hard" [] "notAnswered" false 11];
               section "Chemistry"
                 [bare_question;
                  question "Bonding" "easy" ["Orbitals"] "ANSWERED" true 10];
               section "Maths - Part A"
                 [question "Algebra" "easy" ["Vectors"; "Matrices"] "answered" true 10]])].

(** A section that has a title and no question. *)
Definition empty_section : json :=
  JObj [("student_name", JStr "A");
        ("sections", JArr [section "Physics" []])].

End Sample.


(** ** The statements of the specification *)

(** *** Subject inference *)






(** *** Fields of a question attempt *)

(** [v[k]] when [v] is an object that has the key. *)
Definition field (k : string) (v : json) : option json :=
  match v with
  | JObj items => Py.assoc k items
  | _ => None
  end.

(** The object is flagged correct. *)
Definition flagged_correct (v : json) : bool :=
  match field "isCorrect" v with
  | Some c => Py.truthy c
  | None => false
  end.

Definition marked_options (q_data : json) : list json :=
  match field "markedOptions" q_data with
  | Some (JArr opts) => opts
  | _ => []
  end.

(** Some marked option, or the numeric-entry value, is flagged correct. *)
Definition system_correct (q_data : json) : Prop :=
  (exists opt, In opt (marked_options q_data) /\ flagged_correct opt = true) \/
  (exists iv, field "inputValue" q_data = Some iv /\ flagged_correct iv = true).

(** The status field is ["answered"] as written. *)
Definition answered_verbatim (q_data : json) : Prop :=
  field "status" q_data = Some (JStr "answered").

(** The status field is ["answered"] without regard to case. *)
Definition answered (q_data : json) : Prop :=
  exists s, field "status" q_data = Some (JStr s) /\ Py.lower s = "answered".

(** The status invariant of a flattened question, over a notion of
    "the source status is answered". *)
Definition status_rule (is_answered : json -> Prop) (q_data : json) (out : string)
  : Prop :=
  (out = "Correct" \/ out = "Incorrect" \/ out = "Unattempted") /\
  (~ is_answered q_data -> out = "Unattempted") /\
  (is_answered q_data ->
     (out = "Correct" <-> system_correct q_data) /\
     (~ system_correct q_data -> out = "Incorrect")).

(** [questionId.level] *)
Definition question_level (q_data : json) : option json :=
  field "level" (default (JObj []) (field "questionId" q_data)).



(** *** Groups of flattened questions *)

Definition rows_where (key : row -> string) (k : string) (df : list row)
  : list row :=
  filter (fun r => key r = k) df.

(** The rows that list concept [c], once for every time they list it. *)
Definition rows_listing (c : string) (df : list row) : list row :=
  r ← df; (fun _ => r) <$> filter (fun x => x = c) (concepts r).

(** The arithmetic mean of the times of a group, counting every row. *)
Definition average_time (rows : list row) : Q :=
  (Qsum (time_taken_seconds <$> rows) / Qnat (length rows))%Q.

Definition count_correct (rows : list row) : nat :=
  length (with_status "Correct" rows).

(** The summary of an observed group, as the specification words it. *)
Definition observed_summary (rows : list row) : GroupSummary :=
  {| total_questions := length rows;
     correct_answers := count_correct rows;
     accuracy_percent := round2 (percent (count_correct rows) (length rows));
     average_time_seconds := Some (round2 (average_time rows)) |}.

Definition sum_total_questions (m : gmap string GroupSummary) : nat :=
  sum_list (total_questions <$> (map_to_list m).*2).

(** The summary of a canonical subject: the expected count in place of
    the observed one. *)
Definition expected_summary (rows : list row) : GroupSummary :=
  {| total_questions := 25;
     correct_answers := count_correct rows;
     accuracy_percent := round2 (percent (count_correct rows) 25);
     average_time_seconds := Some (round2 (average_time rows)) |}.

Definition canonical_subjects : list string := ["Physics"; "Chemistry"; "Maths"].

(** The accumulator after the rounds for [rows], starting from [a]. *)
Definition agg_extend (a : ConceptAgg) (rows : list row) : ConceptAgg :=
  {| agg_correct := agg_correct a + count_correct rows;
     agg_total := agg_total a + length rows;
     agg_time_taken_list := agg_time_taken_list a ++ (time_taken_seconds <$> rows) |}.

Definition agg_extend_opt (o : option ConceptAgg) (rows : list row)
  : option ConceptAgg :=
  match rows with
  | [] => o
  | _ => Some (agg_extend (default agg_default o) rows)
  end.


(** The title of a chapter or concept entry; [JNull] when it has none. *)
Definition entry_title (entry : json) : json :=
  default JNull (field "title" entry).

(** ** Loading a record: [load_data] and the first two steps of the driver *)

(** What opening and decoding the file came to. *)
Inductive file_outcome : Type :=
| NoSuchFile
| NotJSON
| ReadFailure
| Parsed (data : json).

(** [load_data]: the record, or [None] ([JNull]). *)
Definition load_data (f : file_outcome) : json :=
  match f with
  | Parsed data =>
      match data with
      | JArr (first :: _) => first
      | JObj _ => data
      | _ => JNull
      end
  | _ => JNull
  end.

(** Steps 1 and 2 of [run_full_analysis_and_report_generation]:
    [Ok None] is the early [return False], [Ok (Some _)] the processed
    data that goes on to the feedback and the report; nothing catches what
    [process_student_data] raises. *)
Definition load_and_process (f : file_outcome) : result (option Analysis) :=
  let raw_data := load_data f in
  if negb (Py.truthy raw_data) then Ok None
  else
    processed_data ← process_student_data raw_data;
    match processed_data with
    | None => Ok None
    | Some d => Ok (Some d)
    end.

(** ** The time formatters of the feedback text and of the report *)

Module Fmt.

(** [isinstance(seconds, (int, float))]: a number, or a boolean, which
    is an [int]. *)
Definition as_number (v : json) : option Q :=
  match v with
  | JNum q => Some q
  | JBool b => Some (if b then 1%Q else 0%Q)
  | _ => None
  end.

Definition Qltb (x y : Q) : bool := negb (Qle_bool y x).

(** [int(x)]: towards zero. *)
Definition py_int (x : Q) : Z := Z.quot (Qnum x) (Zpos (Qden x)).

(** [str(n)] of an integer. *)
Definition dec (n : Z) : string := NilZero.string_of_int (Z.to_int n).

Definition format_time_for_llm (seconds : json) : string :=
  match as_number seconds with
  | None => "N/A"
  | Some x =>
      if Qltb x 0 then "N/A"
      else
        let seconds := py_int x in
        let minutes := seconds / 60 in
        let remaining_seconds := seconds mod 60 in
        if 0 <? minutes
        then dec minutes +:+ " min " +:+ dec remaining_seconds +:+ " sec"
        else if 0 <=? remaining_seconds
        then dec remaining_seconds +:+ " sec"
        else "N/A"
  end.

Definition format_seconds_for_pdf (seconds : json) : string :=
  match as_number seconds with
  | None => "N/A"
  | Some x =>
      if Qltb x 0 then "N/A"
      else
        let seconds := py_int x in
        let minutes := seconds / 60 in
        let remaining_seconds := seconds mod 60 in
        if 0 <? minutes
        then dec minutes +:+ "m " +:+ dec remaining_seconds +:+ "s"
        else if 0 <=? remaining_seconds
        then dec remaining_seconds +:+ "s"
        else "N/A"
  end.

End Fmt.

(** ** The highlights of the feedback text and the tables of the report *)

Module Report.

(** A dictionary of group summaries, as the list of its items in the
    order of the dictionary. *)
Definition perf_dict : Type := list (string * GroupSummary).

Definition accuracy_of (item : string * GroupSummary) : Q :=
  accuracy_percent item.2.

Fixpoint insert_by_accuracy (x : string * GroupSummary) (l : perf_dict) : perf_dict :=
  match l with
  | [] => [x]
  | y :: l' =>
      if Qle_bool (accuracy_of x) (accuracy_of y) then x :: y :: l'
      else y :: insert_by_accuracy x l'
  end.

(** [sorted(d.items(), key=accuracy)]: the stable sort, by insertion from
    the right. *)
Definition sorted_by_accuracy (d : perf_dict) : perf_dict :=
  foldr insert_by_accuracy [] d.

(** The loop of [format_data_for_llm] over the sorted chapters, and the
    same loop over the sorted concepts: the items whose lines it appends,
    from the count [shown] on. *)
Fixpoint llm_highlight_loop (sorted_items : perf_dict) (shown : nat) : perf_dict :=
  match sorted_items with
  | [] => []
  | item :: rest =>
      let below := Fmt.Qltb (accuracy_of item) 60 in
      let show := (shown <? 5)%nat || below in
      let shown' := if show then S shown else shown in
      let out := if show then [item] else [] in
      if (5 <=? shown')%nat && negb below then out
      else (out ++ llm_highlight_loop rest shown')%list
  end.

Definition llm_highlights (d : perf_dict) : perf_dict :=
  llm_highlight_loop (sorted_by_accuracy d) 0.

(** The loop of [generate_pdf_report] over the sorted chapters: the items
    that get a row of the chapter table. *)
Fixpoint pdf_chapter_loop (sorted_items : perf_dict) (chapters_shown : nat)
  : perf_dict :=
  match sorted_items with
  | [] => []
  | item :: rest =>
      let show := (chapters_shown <? 7)%nat || Fmt.Qltb (accuracy_of item) 65 in
      let shown' := if show then S chapters_shown else chapters_shown in
      let out := if show then [item] else [] in
      if (10 <=? shown')%nat then out
      else (out ++ pdf_chapter_loop rest shown')%list
  end.

Definition pdf_chapter_rows (d : perf_dict) : perf_dict :=
  pdf_chapter_loop (sorted_by_accuracy d) 0.

(** [k in d] and [k in l] *)
Definition has_key (k : string) (d : perf_dict) : bool :=
  existsb (fun kv => String.eqb k kv.1) d.
Definition in_list (k : string) (l : list string) : bool :=
  existsb (String.eqb k) l.

(** [d[k]] *)
Fixpoint index (d : perf_dict) (k : string) : result GroupSummary :=
  match d with
  | [] => Raise (KeyError k)
  | (k', v) :: rest => if String.eqb k k' then Ok v else index rest k
  end.

(** The body of the loop over the four standard levels. *)
Definition main_level_step (difficulty_perf : perf_dict)
    (ordered_levels : list string) (level_key_main : string) : list string :=
  if has_key level_key_main difficulty_perf
  then (ordered_levels ++ [level_key_main])%list
  else if has_key (Py.lower level_key_main) difficulty_perf
  then (ordered_levels ++ [Py.lower level_key_main])%list
  else ordered_levels.

(** The body of the loop over the keys of the dictionary. *)
Definition other_level_step (ordered_levels : list string)
    (level_key_other : string) : list string :=
  if negb (in_list level_key_other ordered_levels)
     && negb (in_list (Py.capitalize level_key_other) ordered_levels)
  then (ordered_levels ++ [level_key_other])%list
  else ordered_levels.

Definition ordered_levels (difficulty_perf : perf_dict) : list string :=
  foldl other_level_step
    (foldl (main_level_step difficulty_perf) [] ["Easy"; "Medium"; "Hard"; "Tough"])
    (difficulty_perf.*1).

(** The rows of the difficulty table: the label and the summary read
    with [difficulty_perf[lvl]]. *)
Definition difficulty_rows (difficulty_perf : perf_dict)
  : result (list (string * GroupSummary)) :=
  mapM_result
    (fun lvl => p_data ← index difficulty_perf lvl; Ok (Py.capitalize lvl, p_data))
    (ordered_levels difficulty_perf).

End Report.

(** ** [generate_feedback] and the checks made on its result *)

Module Feedback.

(** What the call [model.generate_content(prompt, ...)] and the reading
    of its response came to: the prompt was blocked (with the reason
    shown), there is no candidate or no part, the texts of the parts (at
    least one part), or an exception (with its text, [str(e)]). *)
Inductive gemini_outcome : Type :=
| Blocked (reason : string)
| NoContent
| Parts (texts : list string)
| Failed (message : string).

(** [c.isspace()] in the ASCII range. *)
Definition is_space (c : ascii) : bool :=
  Py.in_range 9 13 c || Py.in_range 28 32 c.

Fixpoint lstrip (s : string) : string :=
  match s with
  | EmptyString => EmptyString
  | String c r => if is_space c then lstrip r else s
  end.

Fixpoint rstrip (s : string) : string :=
  match s with
  | EmptyString => EmptyString
  | String c r =>
      let r' := rstrip r in
      if is_space c && String.eqb r' "" then EmptyString else String c r'
  end.

(** [s.strip()] *)
Definition strip (s : string) : string := rstrip (lstrip s).

(** [needle in hay] *)
Fixpoint contains (needle hay : string) : bool :=
  String.prefix needle hay ||
  match hay with
  | EmptyString => false
  | String _ r => contains needle r
  end.

(** [s[:n]] *)
Fixpoint take_chars (n : nat) (s : string) : string :=
  match n, s with
  | S n', String c r => String c (take_chars n' r)
  | _, _ => EmptyString
  end.

(** ["".join(texts)] *)
Definition join (texts : list string) : string :=
  foldr String.append EmptyString texts.

Definition nonempty (s : string) : bool := negb (String.eqb s "").

(** The text returned on an exception. *)
Definition failure_text (message : string) : string :=
  if contains "API_KEY_INVALID" message || contains "PERMISSION_DENIED" message
  then "Error generating feedback: The Google Gemini API Key is invalid or permissions are denied. Please check `config.py`."
  else if contains "deadline exceeded" (Py.lower message)
          || contains "timeout" (Py.lower message)
  then "Error generating feedback: The request to the AI service timed out. Please try again later."
  else "Error generating feedback: An unexpected error occurred with the AI service. Details: "
       +:+ take_chars 200 message.

(** [model] is the module's client, [None] when its configuration
    failed; the prompt is built from the two arguments, so the outcome of
    the call is a function of them. *)
Definition generate_feedback
    (model : option (string -> string -> gemini_outcome))
    (processed_data_str student_name : string) : string :=
  match model with
  | None =>
      "Error: AI Feedback generation service is unavailable due to configuration issues."
  | Some generate_content =>
      if negb (nonempty processed_data_str)
         || String.eqb processed_data_str "No data available to format for LLM."
      then "Error: No processed data was provided to generate feedback."
      else
        match generate_content processed_data_str student_name with
        | Blocked reason =>
            "Error: The AI could not generate feedback because the request was blocked by safety filters. Reason: "
            +:+ reason
        | NoContent =>
            "Error: The AI did not generate any feedback content, or the response was empty."
        | Parts texts =>
            let generated_text := join (List.filter nonempty texts) in
            if negb (nonempty (strip generated_text))
            then "Error: The AI generated an empty feedback string."
            else generated_text
        | Failed message => failure_text message
        end
  end.

(** [ai_feedback.startswith("Error:")], the check of the driver. *)
Definition reported_as_failure (ai_feedback : string) : bool :=
  String.prefix "Error:" ai_feedback.

(** The condition under which [generate_pdf_report] lays the text out as
    feedback; otherwise it prints the warning paragraph. *)
Definition rendered_as_feedback (ai_feedback_text : string) : bool :=
  nonempty ai_feedback_text && negb (String.prefix "Error:" ai_feedback_text).

End Feedback.

(** ** Words for the properties of the engine *)

Definition is_object (v : json) : bool :=
  match v with JObj _ => true | _ => false end.

(** Absent, or present with the given shape. *)
Definition absent_or (shape : json -> bool) (o : option json) : Prop :=
  match o with
  | None => True
  | Some v => shape v = true
  end.

(** [sectionId.title], with the default of the engine. *)
Definition section_title (section : json) : json :=
  default (JStr "Unknown Section")
    (field "title" (default (JObj []) (field "sectionId" section))).

Definition section_subject (section : json) : string :=
  extract_subject_from_title (section_title section).

(** The number of entries of [questions], when it is a list. *)
Definition question_count (section : json) : nat :=
  match field "questions" section with
  | Some (JArr questions) => length questions
  | _ => 0%nat
  end.

(** [questionId.chapters] *)
Definition question_chapters (q_data : json) : option json :=
  field "chapters" (default (JObj []) (field "questionId" q_data)).

Definition sum_correct_answers (m : gmap string GroupSummary) : nat :=
  sum_list (correct_answers <$> (map_to_list m).*2).

Definition known_status (s : string) : Prop :=
  s = "Correct" \/ s = "Incorrect" \/ s = "Unattempted".

(** A row of the frame that comes from flattening a question. *)
Definition flattened (r : row) : Prop :=
  exists subj q raw, flatten_question subj q = Ok raw /\ typed_row raw = Ok r.

Definition percentage (x : Q) : Prop := (0 <= x /\ x <= 100)%Q.

(** ** Words for the properties of the formatters *)

Fixpoint all_digits (s : string) : bool :=
  match s with
  | EmptyString => true
  | String c r => Py.is_digit c && all_digits r
  end.

(** Minutes and seconds of a whole number of seconds, between the two
    given marks. *)
Definition minutes_and_seconds (after_minutes after_seconds : string) (n : Z)
  : string :=
  if 0 <? n / 60
  then Fmt.dec (n / 60) +:+ after_minutes +:+ Fmt.dec (n mod 60) +:+ after_seconds
  else Fmt.dec (n mod 60) +:+ after_seconds.

(** The argument is a number that is not negative. *)
Definition duration (v : json) (x : Q) : Prop :=
  Fmt.as_number v = Some x /\ (0 <= x)%Q.

(** ** Words for the properties of the highlights and the tables *)

(** The accuracy of the item is below the threshold. *)
Definition below (threshold : Q) (item : string * GroupSummary) : bool :=
  Fmt.Qltb (Report.accuracy_of item) threshold.

Definition count_below (threshold : Q) (d : Report.perf_dict) : nat :=
  length (List.filter (below threshold) d).

(** In ascending order of accuracy. *)
Definition by_accuracy (x y : string * GroupSummary) : Prop :=
  Qle_bool (Report.accuracy_of x) (Report.accuracy_of y) = true.

Definition ascending (d : Report.perf_dict) : Prop :=
  StronglySorted by_accuracy d.


(** ** Whole words and the regular expressions *)

Section WholeWord.

Import Re.
#[local] Arguments String.append !_ _ / : simpl nomatch.


Lemma app_nil_r_str (a : string) : a +:+ "" = a.
Proof. induction a as [|x a IH]; simpl; [reflexivity | now rewrite IH]. Qed.













End WholeWord.

(** ** Subject inference: the rule set *)

Section SubjectRules.

Lemma not_str_unknown (v : json) :
  is_str v = false -> extract_subject_from_title v = "Unknown Subject".
Proof.
  intros H. unfold extract_subject_from_title. rewrite H.
  now rewrite orb_true_r.
Qed.





(** Extra words around the subject do not prevent the match; a longer
    word that contains it does. *)
Example subject_extra_words :
  extract_subject_from_title (JStr "Physics Section 2") = "Physics" /\
  extract_subject_from_title (JStr "Applied MATHEMATICS") = "Maths" /\
  extract_subject_from_title (JStr "Biophysics") = "Other Subjects" /\
  extract_subject_from_title JNull = "Unknown Subject".
Proof. repeat split; vm_compute; reflexivity. Qed.

End SubjectRules.

(** ** Flattening one question *)

Section Flatten.

Lemma bind_Ok {A B} (m : result A) (f : A -> result B) (b : B) :
  (m ≫= f) = Ok b -> exists a, m = Ok a /\ f a = Ok b.
Proof. destruct m as [a|e]; simpl; [eauto | discriminate]. Qed.

Lemma get_Ok (d : json) (k : string) (dflt v : json) :
  Py.get d k dflt = Ok v ->
  exists items, d = JObj items /\ v = default dflt (Py.assoc k items).
Proof. destruct d; simpl; try discriminate. intros [= <-]. eauto. Qed.

Lemma flagged_correct_get (opt c : json) :
  Py.get opt "isCorrect" JNull = Ok c -> Py.truthy c = flagged_correct opt.
Proof.
  intros (items & -> & ->)%get_Ok. unfold flagged_correct, field.
  now destruct (Py.assoc "isCorrect" items).
Qed.

(** The loop over the marked options finds a flag exactly when there is
    one. *)
Lemma any_marked_correct_spec (opts : list json) (b : bool) :
  any_marked_correct opts = Ok b ->
  b = true <-> exists opt, In opt opts /\ flagged_correct opt = true.
Proof.
  revert b; induction opts as [|opt opts IH]; intros b; simpl.
  - intros [= <-]. split; [discriminate | intros (? & [] & _)].
  - intros (c & Hc & H)%bind_Ok. apply flagged_correct_get in Hc.
    destruct (Py.truthy c) eqn:Ec.
    + injection H as <-. split; [|reflexivity]. intros _. exists opt. split; [now left | congruence].
    + rewrite (IH _ H). split.
      * intros (o & Ho & Hf). exists o. split; [now right | assumption].
      * intros (o & [<-|Ho] & Hf); [congruence | eauto].
Qed.

Ltac bind_inv H :=
  let x := fresh "x" in
  let E := fresh "E" in
  apply bind_Ok in H as (x & E & H).

(** What a successful flattening has read from the question. *)
Lemma flatten_question_inv (subj : string) (q_data : json) (r : raw_row) :
  flatten_question subj q_data = Ok r ->
  exists items by_option input_correct st,
    q_data = JObj items /\
    (by_option = true <->
       exists opt, In opt (marked_options q_data) /\ flagged_correct opt = true) /\
    (input_correct = true <->
       exists iv, field "inputValue" q_data = Some iv /\ flagged_correct iv = true) /\
    default (JStr "notAnswered") (Py.assoc "status" items) = JStr st /\
    raw_status r = final_status (Py.lower st) (by_option || input_correct) /\
    raw_time_taken_seconds r = default (JNum 0) (Py.assoc "timeTaken" items) /\
    Py.str_capitalize
      (default (JStr "Unknown Difficulty") (question_level q_data))
      = Ok (raw_difficulty r) /\
    raw_subject r = subj.
Proof.
  unfold flatten_question. intros H.
  apply bind_Ok in H as (detail & (items & -> & ->)%get_Ok & H).
  bind_inv H. bind_inv H. bind_inv H. bind_inv H.
  apply bind_Ok in H as (level & Hlevel & H).
  apply bind_Ok in H as (diff & Hdiff & H).
  apply bind_Ok in H as (marked & [= <-] & H).
  apply bind_Ok in H as (by_option & Hopt & H).
  apply bind_Ok in H as (iv & [= <-] & H).
  apply bind_Ok in H as (ic & Hic & H).
  apply bind_Ok in H as (st & [= <-] & H).
  apply bind_Ok in H as (l & Hl & H).
  apply bind_Ok in H as (tt & [= <-] & H).
  injection H as <-; simpl.
  destruct (default (JStr "notAnswered") (Py.assoc "status" items))
    as [| | |s| |] eqn:Est; try discriminate Hl.
  injection Hl as <-.
  exists items, by_option, (Py.truthy ic), s.
  split; [reflexivity|]. split; [|split; [|split; [exact Est|split; [reflexivity|]]]].
  - unfold marked_options, field.
    destruct (Py.assoc "markedOptions" items) as [m|]; simpl in Hopt.
    + destruct m as [| | | |opts|]; simpl in Hopt;
        rewrite ?andb_false_r in Hopt;
        try (injection Hopt as <-; split; [discriminate | intros (? & [] & _)]).
      destruct opts as [|o opts]; simpl in Hopt;
        [injection Hopt as <-; split; [discriminate | intros (? & [] & _)]|].
      now apply any_marked_correct_spec.
    + injection Hopt as <-. split; [discriminate | intros (? & [] & _)].
  - unfold field. destruct (Py.assoc "inputValue" items) as [v|]; simpl in Hic.
    + rewrite (flagged_correct_get _ _ Hic). split; [eauto|].
      now intros (? & [= <-] & ?).
    + injection Hic as <-. split; [discriminate | now intros (? & [=] & _)].
  - split; [reflexivity|]. split; [|reflexivity].
    apply get_Ok in Hlevel as (ditems & Hd & ->).
    unfold question_level, field at 2. rewrite Hd. simpl.
    destruct (Py.assoc "level" ditems); exact Hdiff.
Qed.

Lemma final_status_cases (l : string) (b : bool) :
  final_status l b = "Correct" \/ final_status l b = "Incorrect"
  \/ final_status l b = "Unattempted".
Proof. unfold final_status. destruct (String.eqb l "answered"), b; auto. Qed.

(** C1, as amended: the status of a flattened question is one of
    Correct, Incorrect and Unattempted; it is Unattempted unless the
    status field of the question, put in lower case, is "answered", and
    then it is Correct exactly when some marked option or the input value
    is flagged correct, and Incorrect when none is. *)
Theorem flatten_question_status (subj : string) (q_data : json) (r : raw_row) :
  flatten_question subj q_data = Ok r ->
  status_rule answered q_data (raw_status r).
Proof.
  intros (items & bo & ic & st & -> & Hbo & Hic & Hst & -> & _)%flatten_question_inv.
  assert (Hsys : bo || ic = true <-> system_correct (JObj items)).
  { unfold system_correct. rewrite orb_true_iff, Hbo, Hic. reflexivity. }
  assert (Hans : String.eqb (Py.lower st) "answered" = true <-> answered (JObj items)).
  { rewrite String.eqb_eq. unfold answered, field. split.
    - intros Hl. destruct (Py.assoc "status" items) as [v|]; simpl in Hst.
      + subst v. eauto.
      + injection Hst as <-. discriminate Hl.
    - intros (s & Hs & Hl). rewrite Hs in Hst. simpl in Hst. congruence. }
  split; [apply final_status_cases|]. unfold final_status.
  destruct (String.eqb (Py.lower st) "answered").
  - split; [intros Hn; exfalso; apply Hn, Hans; reflexivity|]. intros _.
    destruct (bo || ic).
    + split; [tauto|]. intros Hn. exfalso. apply Hn, Hsys. reflexivity.
    + split; [|reflexivity]. split; [discriminate|].
      intros Hs%Hsys. discriminate Hs.
  - split; [reflexivity|]. intros Ha%Hans. discriminate Ha.
Qed.

End Flatten.

Section FlattenClaims.

(** C1, as stated, fails on a status written in upper case: the question
    is Correct although its status field is not "answered". *)
Lemma upper_case_status_counts :
  let q := Sample.question "Bonding" "easy" ["Orbitals"] "ANSWERED" true 10 in
  exists r, flatten_question "Chemistry" q = Ok r /\
            raw_status r = "Correct" /\
            ~ status_rule answered_verbatim q (raw_status r).
Proof.
  eexists. split; [vm_compute; reflexivity|]. split; [reflexivity|].
  intros (_ & Hun & _).
  assert (Hn : ~ answered_verbatim
                 (Sample.question "Bonding" "easy" ["Orbitals"] "ANSWERED" true 10))
    by (vm_compute; discriminate).
  specialize (Hun Hn). discriminate Hun.
Qed.

(** The scenario of the specification: answered, no marked option and no
    input value gives Incorrect. *)
Lemma flatten_question_status_answered_unmarked :
  status_rule answered Sample.bare_question "Incorrect".
Proof.
  exact (flatten_question_status "Chemistry" Sample.bare_question _ eq_refl).
Defined.




(** The default of an absent level goes through the same method: its
    second word loses the capital. *)
Lemma flatten_question_no_level (subj : string) (q_data : json) (r : raw_row) :
  flatten_question subj q_data = Ok r ->
  question_level q_data = None ->
  raw_difficulty r = "Unknown difficulty".
Proof.
  intros (items & _ & _ & _ & _ & _ & _ & _ & _ & _ & Hd & _)%flatten_question_inv Hl.
  rewrite Hl in Hd. simpl in Hd. now injection Hd as <-.
Qed.


(** The capitalised difficulty is never the sentinel that the difficulty
    pass looks for. *)
Lemma capitalize_not_sentinel (s : string) :
  Py.capitalize s <> "Unknown Difficulty".
Proof.
  destruct s as [|c s]; [discriminate|]. simpl. intros [= _ H].
  do 7 (destruct s as [|? s]; [discriminate|]; simpl in H; injection H as _ H).
  destruct s as [|d s]; [discriminate|]. simpl in H. injection H as Hd _.
  revert Hd. destruct d as [[] [] [] [] [] [] [] []]; vm_compute; discriminate.
Qed.

End FlattenClaims.

(** ** Groups of a frame *)

Section Groups.

Implicit Types (df rows : list row) (key : row -> string) (k s c : string).

Lemma groupby_lookup key df k :
  groupby key df !! k =
  match rows_where key k df with [] => None | rows => Some rows end.
Proof.
  unfold rows_where. induction df as [|r df IH]; [reflexivity|].
  simpl. rewrite lookup_insert, filter_cons.
  destruct (decide (key r = k)) as [->|Hne].
  - rewrite IH. now destruct (filter _ df).
  - exact IH.
Qed.

Lemma count_eq_status s rows :
  count_eq s (status <$> rows) = length (with_status s rows).
Proof.
  unfold count_eq, with_status. induction rows as [|r rows IH]; [reflexivity|].
  rewrite fmap_cons, !filter_cons.
  destruct (decide (status r = s)); simpl; now rewrite IH.
Qed.

Lemma mean_Some (xs : list Q) :
  xs <> [] -> mean xs = Some (Qsum xs / Qnat (length xs))%Q.
Proof. destruct xs; [congruence | reflexivity]. Qed.

Lemma mean_nonempty rows :
  rows <> [] ->
  mean (time_taken_seconds <$> rows) = Some (average_time rows).
Proof.
  intros Hne. rewrite mean_Some by (destruct rows; [congruence | discriminate]).
  unfold average_time. now rewrite length_fmap.
Qed.

Lemma positive_length {A} (l : list A) : l <> [] -> (0 <? length l)%nat = true.
Proof. destruct l; [congruence | reflexivity]. Qed.

(** On a group that has rows, the loop body of the chapter and
    difficulty passes gives the summary of the specification. *)
Lemma group_summary_observed rows :
  rows <> [] -> group_summary rows = observed_summary rows.
Proof.
  intros Hne. unfold group_summary, observed_summary, count_correct.
  now rewrite positive_length, count_eq_status, mean_nonempty by assumption.
Qed.

Lemma grouped_performance_lookup key skip df k :
  grouped_performance key skip df !! k =
  if decide (k = skip) then None
  else match rows_where key k df with
       | [] => None
       | rows => Some (observed_summary rows)
       end.
Proof.
  destruct (decide (df = [])) as [->|Hdf].
  - unfold grouped_performance. simpl. rewrite lookup_empty.
    now destruct (decide (k = skip)).
  - assert (E0 : grouped_performance key skip df =
                 group_summary <$>
                   filter (fun kv => kv.1 ≠ skip) (groupby key df))
      by (destruct df; [congruence | reflexivity]).
    rewrite E0.
    rewrite lookup_fmap, map_lookup_filter, groupby_lookup.
    destruct (rows_where key k df) as [|r rows] eqn:E; simpl.
    + now destruct (decide (k = skip)).
    + destruct (decide (k = skip)) as [->|Hne].
      * rewrite option_guard_False by (simpl; congruence). reflexivity.
      * rewrite option_guard_True by (simpl; congruence). simpl.
        now rewrite group_summary_observed.
Qed.

(** *** The subject pass *)

Lemma expected_canonical s :
  In s canonical_subjects -> EXPECTED_QUESTIONS_PER_SUBJECT !! s = Some 25%nat.
Proof. intros [<-|[<-|[<-|[]]]]; reflexivity. Qed.

(** The loop body on a canonical subject: a summary when the subject has
    rows, [KeyError] when it has none. *)
Lemma subject_summary_canonical df s :
  In s canonical_subjects ->
  subject_summary (groupby subject df) s =
  match rows_where subject s df with
  | [] => Raise (KeyError "status")
  | rows => Ok (expected_summary rows)
  end.
Proof.
  intros Hs. unfold subject_summary.
  rewrite groupby_lookup, (expected_canonical s Hs).
  destruct (rows_where subject s df) as [|r rows]; [reflexivity|].
  simpl default. cbn [column is_empty negb mbind result_bind].
  unfold expected_summary, count_correct.
  rewrite count_eq_status, mean_nonempty by discriminate. reflexivity.
Qed.

Lemma make_subject_performance_unfold df :
  df <> [] ->
  make_subject_performance df =
  (g1 ← subject_summary (groupby subject df) "Physics";
   g2 ← subject_summary (groupby subject df) "Chemistry";
   g3 ← subject_summary (groupby subject df) "Maths";
   Ok (<["Maths" := g3]> (<["Chemistry" := g2]> (<["Physics" := g1]> ∅)))).
Proof. destruct df; [congruence | reflexivity]. Qed.

(** A canonical subject without a question makes the pass raise. *)
Lemma make_subject_performance_missing df s :
  df <> [] -> In s canonical_subjects -> rows_where subject s df = [] ->
  make_subject_performance df = Raise (KeyError "status").
Proof.
  intros Hdf Hs Hrows. rewrite make_subject_performance_unfold by assumption.
  rewrite !subject_summary_canonical by (simpl; auto).
  destruct Hs as [<-|[<-|[<-|[]]]]; rewrite Hrows;
    repeat (destruct (rows_where subject _ df); try reflexivity).
Qed.

(** When the pass returns, each canonical subject has rows and the map
    holds its expected summary, and nothing else. *)
Lemma make_subject_performance_Ok df (sp : gmap string GroupSummary) :
  df <> [] -> make_subject_performance df = Ok sp ->
  (forall s, In s canonical_subjects ->
     rows_where subject s df <> [] /\
     (sp !! s) = Some (expected_summary (rows_where subject s df))) /\
  (forall s, ~ In s canonical_subjects -> (sp !! s) = None).
Proof.
  intros Hdf. rewrite make_subject_performance_unfold by assumption.
  rewrite !subject_summary_canonical by (simpl; auto).
  destruct (rows_where subject "Physics" df) as [|r1 l1] eqn:E1; [discriminate|].
  destruct (rows_where subject "Chemistry" df) as [|r2 l2] eqn:E2; [discriminate|].
  destruct (rows_where subject "Maths" df) as [|r3 l3] eqn:E3; [discriminate|].
  intros [= <-]. split.
  - intros s [<-|[<-|[<-|[]]]]; rewrite ?E1, ?E2, ?E3; (split; [discriminate|]);
      reflexivity.
  - intros s Hs. simpl in Hs.
    rewrite !lookup_insert_ne by (intros <-; tauto). apply lookup_empty.
Qed.

End Groups.

(** ** The concept pass *)

Section Concepts.

Implicit Types (df rows : list row) (c : string) (m : gmap string ConceptAgg).

Lemma count_correct_app rows1 rows2 :
  count_correct (rows1 ++ rows2) = (count_correct rows1 + count_correct rows2)%nat.
Proof. unfold count_correct, with_status. now rewrite filter_app, length_app. Qed.

Lemma count_correct_one (r : row) :
  count_correct [r] = if is_correct r then 1%nat else 0%nat.
Proof.
  unfold count_correct, with_status, is_correct. rewrite filter_cons.
  destruct (String.eqb_spec (status r) "Correct") as [E|E];
    destruct (decide (status r = "Correct")); try contradiction; reflexivity.
Qed.

Lemma agg_extend_app (a : ConceptAgg) rows1 rows2 :
  agg_extend (agg_extend a rows1) rows2 = agg_extend a (rows1 ++ rows2).
Proof.
  unfold agg_extend. simpl.
  rewrite count_correct_app, length_app, fmap_app, !Nat.add_assoc.
  now rewrite <- app_assoc.
Qed.

Lemma agg_extend_opt_app (o : option ConceptAgg) rows1 rows2 :
  agg_extend_opt (agg_extend_opt o rows1) rows2 = agg_extend_opt o (rows1 ++ rows2).
Proof.
  destruct rows1 as [|r1 rows1]; [reflexivity|].
  destruct rows2 as [|r2 rows2]; [now rewrite app_nil_r|].
  unfold agg_extend_opt at 1 2. simpl default. rewrite agg_extend_app. reflexivity.
Qed.

(** One round of the inner loop is one more row for its concept. *)
Lemma agg_add_lookup (r : row) c m :
  agg_add r c m !! c = agg_extend_opt (m !! c) [r].
Proof.
  unfold agg_add. rewrite lookup_insert_eq. simpl. f_equal.
  unfold agg_extend. rewrite count_correct_one. simpl.
  destruct (default agg_default (m !! c)) as [co to tl]. simpl.
  rewrite Nat.add_1_r. destruct (is_correct r); [now rewrite Nat.add_1_r | now rewrite Nat.add_0_r].
Qed.

Lemma inner_loop_lookup (r : row) (cs : list string) c m :
  c <> "" ->
  foldl (fun m concept => if String.eqb concept "" then m else agg_add r concept m)
        m cs !! c
  = agg_extend_opt (m !! c) ((fun _ => r) <$> filter (fun x => x = c) cs).
Proof.
  intros Hc. revert m. induction cs as [|x cs IH]; intros m; [reflexivity|].
  simpl foldl. rewrite IH, filter_cons.
  destruct (String.eqb_spec x "") as [->|Hx].
  - now rewrite decide_False by congruence.
  - destruct (decide (x = c)) as [->|Hne].
    + rewrite agg_add_lookup, fmap_cons.
      now rewrite agg_extend_opt_app.
    + unfold agg_add. now rewrite lookup_insert_ne.
Qed.

Lemma inner_loop_empty_key (r : row) (cs : list string) m :
  m !! "" = None ->
  foldl (fun m concept => if String.eqb concept "" then m else agg_add r concept m)
        m cs !! "" = None.
Proof.
  revert m. induction cs as [|x cs IH]; intros m Hm; [exact Hm|].
  simpl foldl. apply IH. destruct (String.eqb_spec x "") as [->|Hx]; [exact Hm|].
  unfold agg_add. now rewrite lookup_insert_ne.
Qed.

Lemma rows_listing_cons c (r : row) df :
  rows_listing c (r :: df) =
  (((fun _ => r) <$> filter (fun x => x = c) (concepts r)) ++ rows_listing c df)%list.
Proof. reflexivity. Qed.

Lemma outer_loop_lookup df c m :
  c <> "" ->
  foldl agg_row m df !! c = agg_extend_opt (m !! c) (rows_listing c df).
Proof.
  intros Hc. revert m. induction df as [|r df IH]; intros m; [reflexivity|].
  simpl foldl. rewrite IH. unfold agg_row. rewrite inner_loop_lookup by assumption.
  now rewrite agg_extend_opt_app, rows_listing_cons.
Qed.

Lemma outer_loop_empty_key df m :
  m !! "" = None -> foldl agg_row m df !! "" = None.
Proof.
  revert m. induction df as [|r df IH]; intros m Hm; [exact Hm|].
  simpl foldl. apply IH. unfold agg_row. now apply inner_loop_empty_key.
Qed.

(** The accumulator of a concept holds the rows that list it. *)
Lemma concept_agg_lookup df c :
  concept_agg df !! c =
  if decide (c = "") then None
  else agg_extend_opt None (rows_listing c df).
Proof.
  unfold concept_agg. destruct (decide (c = "")) as [->|Hc].
  - apply outer_loop_empty_key, lookup_empty.
  - rewrite outer_loop_lookup by assumption. now rewrite lookup_empty.
Qed.

(** The time list of an entry is never empty: the division in the loop
    over the entries is defined. *)
Lemma concept_agg_time_list df c (a : ConceptAgg) :
  concept_agg df !! c = Some a -> agg_time_taken_list a <> [].
Proof.
  rewrite concept_agg_lookup. destruct (decide (c = "")); [discriminate|].
  destruct (rows_listing c df) as [|r rows]; [discriminate|].
  intros [= <-]. discriminate.
Qed.

Lemma concept_summary_observed rows :
  rows <> [] ->
  concept_summary (agg_extend agg_default rows) = observed_summary rows.
Proof.
  intros Hne. unfold concept_summary, observed_summary, agg_extend, average_time.
  simpl. now rewrite positive_length, length_fmap by assumption.
Qed.

Lemma make_concept_performance_lookup df c :
  make_concept_performance df !! c =
  if decide (c = "") then None
  else match rows_listing c df with
       | [] => None
       | rows => Some (observed_summary rows)
       end.
Proof.
  destruct df as [|r0 df'] eqn:Edf.
  - change (make_concept_performance []) with (∅ : gmap string GroupSummary).
    rewrite lookup_empty. now destruct (decide (c = "")).
  - change (make_concept_performance (r0 :: df'))
      with (concept_summary <$> concept_agg (r0 :: df')).
    rewrite <- Edf. rewrite lookup_fmap, concept_agg_lookup.
    destruct (decide (c = "")); [reflexivity|].
    destruct (rows_listing c df) as [|r rows] eqn:E; [reflexivity|].
    simpl. now rewrite concept_summary_observed.
Qed.


End Concepts.

(** ** The engine as a whole *)

Section Engine.

Implicit Types (data : json) (res : Analysis) (df rows : list row).

Lemma make_overall_nonempty data (test_info : json) df (ov : OverallSummary) :
  make_overall data test_info df = Ok ov -> df <> [].
Proof. destruct df; [discriminate | discriminate]. Qed.

(** Without questions the summary pass raises before anything else is
    computed. *)
Lemma aggregate_no_questions data (test_info student : json) (name : list fpart) :
  aggregate data test_info student name [] = Raise (KeyError "status").
Proof. reflexivity. Qed.

Lemma make_overall_fields data (test_info : json) df (ov : OverallSummary) :
  make_overall data test_info df = Ok ov ->
  (0 < length df)%nat /\
  total_questions_in_test ov = length df /\
  overall_correct_answers ov = count_correct df /\
  overall_accuracy_percent ov = round2 (percent (count_correct df) (length df)).
Proof.
  destruct df as [|r0 df'] eqn:Edf; [discriminate|]. rewrite <- Edf.
  assert (Hcol : column "status" status df = Ok (status <$> df)) by now subst df.
  unfold make_overall. rewrite Hcol. cbn [mbind result_bind].
  intros H.
  apply bind_Ok in H as (a & _ & H). apply bind_Ok in H as (b & _ & H).
  apply bind_Ok in H as (c & _ & H). apply bind_Ok in H as (d & _ & H).
  injection H as <-. cbn [total_questions_in_test overall_correct_answers
                            overall_accuracy_percent].
  rewrite count_eq_status.
  assert (Hpos : (0 < length df)%nat) by (subst df; simpl; lia).
  apply Nat.ltb_lt in Hpos as Hb. rewrite Hb. auto.
Qed.

(** Every result of the engine is made of the passes over its own frame. *)
Lemma process_student_data_inv data res :
  process_student_data data = Ok (Some res) ->
  let df := raw_questions_df res in
  make_subject_performance df = Ok (subject_performance res) /\
  chapter_performance res = make_chapter_performance df /\
  difficulty_performance res = make_difficulty_performance df /\
  concept_performance res = make_concept_performance df /\
  time_accuracy_summary res = make_time_accuracy df /\
  (sections_list data = None -> df = [] /\ overall_summary res = None) /\
  (sections_list data <> None -> df <> [] /\ overall_summary res <> None) /\
  (forall ov, overall_summary res = Some ov ->
     exists test_info, make_overall data test_info df = Ok ov).
Proof.
  unfold process_student_data. destruct (Py.truthy data); [|discriminate].
  simpl negb. cbv iota. intros H.
  apply bind_Ok in H as (test_info & _ & H).
  apply bind_Ok in H as (total_marks & _ & H).
  apply bind_Ok in H as (student & _ & H).
  destruct (sections_list data) as [sections|].
  - apply bind_Ok in H as (raws & _ & H).
    apply bind_Ok in H as (res' & Hagg & [= <-]).
    unfold aggregate in Hagg.
    apply bind_Ok in Hagg as (df & _ & Hagg).
    apply bind_Ok in Hagg as (ov & Hov & Hagg).
    pose proof (make_overall_nonempty _ _ _ _ Hov) as Hdf.
    apply bind_Ok in Hagg as (sp & Hsp & [= <-]).
    simpl. repeat split; try assumption; try discriminate; try congruence.
    intros ov' [= <-]. eauto.
  - injection H as <-. simpl. repeat split; try reflexivity; congruence.
Qed.


(** What holds of the subject map of every result: when the record has a
    list of sections, each canonical subject has at least one question,
    the map holds the three of them with the expected count of 25, and no
    other key. *)
Lemma subject_performance_of_result data res :
  process_student_data data = Ok (Some res) ->
  sections_list data <> None ->
  (forall s, In s canonical_subjects ->
     rows_where subject s (raw_questions_df res) <> [] /\
     exists g, subject_performance res !! s = Some g /\ total_questions g = 25%nat) /\
  (forall s, ~ In s canonical_subjects -> subject_performance res !! s = None).
Proof.
  intros (Hsp & _ & _ & _ & _ & _ & Hne & _)%process_student_data_inv Hsec.
  destruct (Hne Hsec) as [Hdf _].
  destruct (make_subject_performance_Ok _ _ Hdf Hsp) as [Hin Hout].
  split; [|exact Hout].
  intros s Hs. destruct (Hin s Hs) as [Hrows ->]. eauto.
Qed.

(** The function returns [None] exactly on a falsy argument. *)
Lemma process_student_data_none data :
  process_student_data data = Ok None <-> Py.truthy data = false.
Proof.
  unfold process_student_data. destruct (Py.truthy data); simpl; [|tauto].
  split; [|discriminate]. intros H.
  apply bind_Ok in H as (test_info & _ & H).
  apply bind_Ok in H as (total_marks & _ & H).
  apply bind_Ok in H as (student & _ & H).
  destruct (sections_list data); [|discriminate].
  apply bind_Ok in H as (raws & _ & H).
  apply bind_Ok in H as (res' & _ & [=]).
Qed.

(** A record that is not empty, whose [test] is absent or an object, and
    that has no list of sections, gets the minimal result: the two names
    and nothing else. *)
Lemma process_student_data_minimal (items : list (string * json)) :
  items <> [] ->
  sections_list (JObj items) = None ->
  (Py.assoc "test" items = None
   \/ exists t, Py.assoc "test" items = Some (JObj t)) ->
  process_student_data (JObj items) =
  Ok (Some (minimal_result
              (default (JStr "Valued Student") (Py.assoc "student_name" items))
              [Lit "QPT Analysis (Total Marks: ";
               Interp (default (JStr "N/A")
                         (field "totalMarks"
                            (default (JObj []) (Py.assoc "test" items))));
               Lit ")"])).
Proof.
  intros Hne Hsec Htest. unfold process_student_data.
  assert (Ht : Py.truthy (JObj items) = true)
    by (destruct items; [congruence | reflexivity]).
  rewrite Ht, Hsec. simpl negb. cbv iota.
  destruct Htest as [E|[t E]]; simpl; rewrite E; reflexivity.
Qed.

End Engine.

(** ** Averages *)

Section Averages.

Implicit Types (df rows : list row).




Lemma Qnat_pos (n : nat) : (0 < n)%nat -> (0 < Qnat n)%Q.
Proof.
  intros H. unfold Qnat. change 0%Q with (inject_Z 0).
  rewrite <- Zlt_Qlt. lia.
Qed.


End Averages.

(** ** The aggregates of a record *)

Section Aggregates.

Implicit Types (data : json) (res : Analysis) (df rows : list row).

Lemma mapM_titles (entries : list json) (ts : list json) :
  mapM_result (fun x => Py.get x "title" JNull) entries = Ok ts ->
  ts = entry_title <$> entries.
Proof.
  revert ts; induction entries as [|e entries IH]; intros ts; simpl.
  - now intros [= <-].
  - intros (t & (items & -> & ->)%get_Ok & H)%bind_Ok.
    apply bind_Ok in H as (ts' & Hts & [= <-]).
    now rewrite (IH _ Hts).
Qed.







End Aggregates.

(** ** Missing data *)

Section MissingData.

Implicit Types (data : json) (res : Analysis) (df rows : list row).



(** C2 fails on the first scenario of the specification, a record with a
    Physics section only: the subject pass reads the status column of the
    empty frame that stands for Chemistry, and the engine raises. *)
Theorem missing_subject_raises :
  rows_where subject "Chemistry"
    [Row "Physics" "Kinematics" "Easy" [] "Correct" 30] = [] /\
  process_student_data Sample.physics_only = Raise (KeyError "status").
Proof. split; vm_compute; reflexivity. Qed.

(** C4 fails on a question without [level]: the default is capitalised
    like any level, so it is not the sentinel that the difficulty pass
    leaves out, and the question makes a group of its own. *)
Theorem unknown_difficulty_is_reported :
  question_level Sample.bare_question = None /\
  exists res g,
    process_student_data Sample.three_subjects = Ok (Some res) /\
    difficulty_performance res !! "Unknown difficulty" = Some g /\
    total_questions g = 1%nat /\
    difficulty_performance res !! "Unknown Difficulty" = None.
Proof.
  split; [reflexivity|]. eexists. eexists.
  split; [vm_compute; reflexivity|].
  split; [vm_compute; reflexivity|].
  split; vm_compute; reflexivity.
Qed.

(** C6 fails on a record whose list of sections is empty: the record is
    not empty and has its [sections], and the engine raises. *)
Theorem empty_sections_raise :
  Py.truthy Sample.no_questions = true /\
  sections_list Sample.no_questions = Some [] /\
  process_student_data Sample.no_questions = Raise (KeyError "status").
Proof. repeat split. Qed.

(** C7 fails wherever it applies: without a flattened question the
    summary pass raises before it reaches the guarded division, so that no
    accuracy of 0 is ever reported. *)
Theorem no_question_no_accuracy :
  (forall data test_info student name,
     aggregate data test_info student name [] = Raise (KeyError "status")) /\
  flatten_sections [Sample.section "Physics" []] = Ok [] /\
  process_student_data Sample.empty_section = Raise (KeyError "status").
Proof. repeat split. Qed.

(** What does hold: an accuracy is reported for a positive number of
    questions only, and is the rounded percentage; the division is never
    by zero. *)
Lemma overall_accuracy_of_result data res (ov : OverallSummary) :
  process_student_data data = Ok (Some res) ->
  overall_summary res = Some ov ->
  let df := raw_questions_df res in
  (0 < length df)%nat /\
  total_questions_in_test ov = length df /\
  overall_accuracy_percent ov = round2 (percent (count_correct df) (length df)).
Proof.
  intros (_ & _ & _ & _ & _ & _ & _ & Hov)%process_student_data_inv E.
  destruct (Hov ov E) as (test_info & H).
  apply make_overall_fields in H as (H1 & H2 & _ & H4). auto.
Qed.

(** What does hold of the sentinels: neither is ever a key of its map. *)
Lemma sentinels_not_reported data res :
  process_student_data data = Ok (Some res) ->
  chapter_performance res !! "Unknown Chapter" = None /\
  difficulty_performance res !! "Unknown Difficulty" = None.
Proof.
  intros (_ & Hch & Hdi & _)%process_student_data_inv.
  rewrite Hch, Hdi. unfold make_chapter_performance, make_difficulty_performance.
  rewrite !grouped_performance_lookup. split; now rewrite decide_True.
Qed.

End MissingData.

(** ** More on the engine: where the rows come from *)

Section Provenance.

Implicit Types (data : json) (res : Analysis) (df rows : list row).

Lemma mapM_result_Forall2 {A B} (f : A -> result B) (xs : list A) (ys : list B) :
  mapM_result f xs = Ok ys -> Forall2 (fun x y => f x = Ok y) xs ys.
Proof.
  revert ys; induction xs as [|x xs IH]; intros ys; simpl.
  - intros [= <-]. constructor.
  - intros (y & Hy & H)%bind_Ok. apply bind_Ok in H as (ys' & Hys & [= <-]).
    constructor; auto.
Qed.

Lemma typed_row_fields (raw : raw_row) (r : row) :
  typed_row raw = Ok r ->
  subject r = raw_subject raw /\ difficulty r = raw_difficulty raw /\
  status r = raw_status raw /\ JStr (chapter r) = raw_chapter raw /\
  JNum (time_taken_seconds r) = raw_time_taken_seconds raw.
Proof.
  unfold typed_row. intros H.
  apply bind_Ok in H as (ch & Hch & H).
  apply bind_Ok in H as (cs & _ & H).
  apply bind_Ok in H as (t & Ht & H).
  injection H as <-. simpl.
  destruct (raw_chapter raw); try discriminate Hch. injection Hch as <-.
  destruct (raw_time_taken_seconds raw); try discriminate Ht. injection Ht as <-.
  auto.
Qed.

(** The questions of a section, flattened: one row for each, with the
    subject of the section. *)
Lemma flatten_section_subjects (section : json) (raws : list raw_row) :
  flatten_section section = Ok raws ->
  raw_subject <$> raws = replicate (question_count section) (section_subject section).
Proof.
  unfold flatten_section. intros H.
  apply bind_Ok in H as (info & (items & -> & ->)%get_Ok & H).
  apply bind_Ok in H as (title & Htitle & H).
  apply bind_Ok in H as (questions & [= <-] & H).
  apply bind_Ok in H as (qs & Hqs & H).
  assert (Esub : extract_subject_from_title title = section_subject (JObj items)).
  { unfold section_subject, section_title. cbn [field].
    apply get_Ok in Htitle as (it & -> & ->). reflexivity. }
  rewrite Esub in H. clear Esub Htitle.
  apply mapM_result_Forall2 in H.
  assert (Hlen : length qs = question_count (JObj items)).
  { unfold question_count. cbn [field].
    destruct (Py.assoc "questions" items) as [v|]; simpl in Hqs.
    - destruct v as [| | |s|l|kvs]; try discriminate Hqs; injection Hqs as <-.
      + destruct s as [|c s]; [reflexivity|]. inversion H as [|? ? ? ? Hq _]. discriminate Hq.
      + reflexivity.
      + destruct kvs as [|kv kvs]; [reflexivity|]. inversion H as [|? ? ? ? Hq _]. discriminate Hq.
    - now injection Hqs as <-. }
  rewrite <- Hlen. clear Hlen Hqs.
  induction H as [|q raw qs raws Hq _ IH]; [reflexivity|].
  rewrite fmap_cons. simpl. f_equal; [|exact IH].
  now apply flatten_question_inv in Hq as (? & ? & ? & ? & _ & _ & _ & _ & _ & _ & _ & ->).
Qed.

Lemma flatten_section_Forall (section : json) (raws : list raw_row) :
  flatten_section section = Ok raws ->
  Forall (fun raw => exists subj q, flatten_question subj q = Ok raw) raws.
Proof.
  unfold flatten_section. intros H.
  apply bind_Ok in H as (info & _ & H). apply bind_Ok in H as (title & _ & H).
  apply bind_Ok in H as (questions & _ & H). apply bind_Ok in H as (qs & _ & H).
  apply mapM_result_Forall2 in H.
  induction H; constructor; eauto.
Qed.


Lemma flatten_sections_Forall (sections : list json) (raws : list raw_row) :
  flatten_sections sections = Ok raws ->
  Forall (fun raw => exists subj q, flatten_question subj q = Ok raw) raws.
Proof.
  unfold flatten_sections. intros (rows & H & [= <-])%bind_Ok.
  apply mapM_result_Forall2 in H.
  induction H as [|s r ss rs Hs _ IH]; simpl; [constructor|].
  apply Forall_app. split; [exact (flatten_section_Forall s r Hs) | exact IH].
Qed.

(** The frame of a result is the typed image of the flattened sections. *)
Lemma process_student_data_frame data res :
  process_student_data data = Ok (Some res) ->
  match sections_list data with
  | None => raw_questions_df res = []
  | Some sections =>
      exists raws, flatten_sections sections = Ok raws /\
                   DataFrame raws = Ok (raw_questions_df res)
  end.
Proof.
  unfold process_student_data. destruct (Py.truthy data); [|discriminate].
  simpl negb. cbv iota. intros H.
  apply bind_Ok in H as (test_info & _ & H).
  apply bind_Ok in H as (total_marks & _ & H).
  apply bind_Ok in H as (student & _ & H).
  destruct (sections_list data) as [sections|].
  - apply bind_Ok in H as (raws & Hraws & H).
    apply bind_Ok in H as (res' & Hagg & [= <-]).
    unfold aggregate in Hagg.
    apply bind_Ok in Hagg as (df & Hdf & Hagg).
    apply bind_Ok in Hagg as (ov & _ & Hagg).
    apply bind_Ok in Hagg as (sp & _ & [= <-]).
    simpl. eauto.
  - now injection H as <-.
Qed.

Lemma process_student_data_flattened data res :
  process_student_data data = Ok (Some res) ->
  Forall flattened (raw_questions_df res).
Proof.
  intros H%process_student_data_frame.
  destruct (sections_list data) as [sections|]; [|rewrite H; constructor].
  destruct H as (raws & Hraws%flatten_sections_Forall & Hdf).
  apply mapM_result_Forall2 in Hdf.
  induction Hdf as [|raw r raws df Hr _ IH]; [constructor|].
  inversion Hraws as [|? ? (subj & q & Hq) Hrest]; subst.
  constructor; [|now apply IH].
  exists subj, q, raw. auto.
Qed.

Lemma flattened_status (r : row) : flattened r -> known_status (status r).
Proof.
  intros (subj & q & raw & Hq & Hr).
  apply typed_row_fields in Hr as (_ & _ & -> & _).
  apply flatten_question_inv in Hq as (? & ? & ? & ? & _ & _ & _ & _ & -> & _).
  apply final_status_cases.
Qed.

End Provenance.

(** ** More on the engine: flattening *)

Section FlatteningMore.

Implicit Types (data : json) (res : Analysis) (df rows : list row).





(** X2: the questions of a section that has no title get the subject
    "Other Subjects" (the default title "Unknown Section" goes through the
    rule set), while those of a section whose title is null, empty or not
    a text get "Unknown Subject". *)
Theorem untitled_section_subject (section : json) (raws : list raw_row) :
  flatten_section section = Ok raws ->
  let title := field "title" (default (JObj []) (field "sectionId" section)) in
  (title = None -> Forall (fun raw => raw_subject raw = "Other Subjects") raws) /\
  (forall v, title = Some v -> is_str v = false \/ v = JStr "" ->
     Forall (fun raw => raw_subject raw = "Unknown Subject") raws).
Proof.
  intros H%flatten_section_subjects. cbv zeta.
  assert (Hall : forall s, section_subject section = s ->
                   Forall (fun raw => raw_subject raw = s) raws).
  { intros s Hs. rewrite Hs in H. clear Hs.
    assert (HF : Forall (fun x => x = s) (raw_subject <$> raws))
      by (rewrite H; apply Forall_replicate; reflexivity).
    rewrite Forall_fmap in HF. exact HF. }
  split.
  - intros Ht. apply Hall. unfold section_subject, section_title. now rewrite Ht.
  - intros v Ht Hv. apply Hall. unfold section_subject, section_title. rewrite Ht.
    destruct Hv as [Hv| ->]; [now apply not_str_unknown | reflexivity].
Qed.

Lemma untitled_section_subject_sample :
  exists raw,
    flatten_section (JObj [("questions", JArr [Sample.bare_question])]) = Ok [raw] /\
    raw_subject raw = "Other Subjects".
Proof.
  eexists. split; [vm_compute; reflexivity|].
  edestruct (untitled_section_subject
               (JObj [("questions", JArr [Sample.bare_question])])) as (H & _);
    [vm_compute; reflexivity|].
  specialize (H eq_refl). inversion H as [|? ? Hraw _]. exact Hraw.
Defined.

Lemma make_overall_counts data (test_info : json) df (ov : OverallSummary) :
  make_overall data test_info df = Ok ov ->
  overall_correct_answers ov = length (with_status "Correct" df) /\
  incorrect_answers ov = length (with_status "Incorrect" df) /\
  unattempted_answers ov = length (with_status "Unattempted" df) /\
  attempted_answers ov = (overall_correct_answers ov + incorrect_answers ov)%nat /\
  total_questions_in_test ov = length df.
Proof.
  destruct df as [|r0 df'] eqn:Edf; [discriminate|]. rewrite <- Edf.
  assert (Hcol : column "status" status df = Ok (status <$> df)) by now subst df.
  unfold make_overall. rewrite Hcol. cbn [mbind result_bind].
  intros H.
  apply bind_Ok in H as (a & _ & H). apply bind_Ok in H as (b & _ & H).
  apply bind_Ok in H as (c & _ & H). apply bind_Ok in H as (d & _ & H).
  injection H as <-. simpl. rewrite !count_eq_status. auto.
Qed.

Lemma status_partition df :
  Forall (fun r => known_status (status r)) df ->
  (length (with_status "Correct" df) + length (with_status "Incorrect" df)
   + length (with_status "Unattempted" df))%nat = length df.
Proof.
  unfold with_status. induction 1 as [|r df Hr _ IH]; [reflexivity|].
  rewrite !filter_cons. simpl length. rewrite <- IH.
  destruct Hr as [E|[E|E]]; rewrite E; simpl; lia.
Qed.

(** X3: in every overall summary the questions are split three ways:
    correct, incorrect and unattempted answers add up to the number of
    flattened questions, which is positive, and the attempted answers are
    the correct and the incorrect ones. *)
Theorem overall_counts_add_up data res (ov : OverallSummary) :
  process_student_data data = Ok (Some res) ->
  overall_summary res = Some ov ->
  (overall_correct_answers ov + incorrect_answers ov + unattempted_answers ov)%nat
    = total_questions_in_test ov /\
  attempted_answers ov = (overall_correct_answers ov + incorrect_answers ov)%nat /\
  (0 < total_questions_in_test ov)%nat /\
  total_questions_in_test ov = length (raw_questions_df res).
Proof.
  intros Hres Hov.
  pose proof (process_student_data_flattened _ _ Hres) as Hfl.
  apply process_student_data_inv in Hres as (_ & _ & _ & _ & _ & _ & _ & H).
  destruct (H ov Hov) as (ti & Hmk).
  pose proof (make_overall_nonempty _ _ _ _ Hmk) as Hne.
  apply make_overall_counts in Hmk as (-> & -> & -> & -> & ->).
  repeat split; try reflexivity.
  - apply status_partition. eapply Forall_impl; [exact Hfl|].
    intros r Hr. now apply flattened_status.
  - destruct (raw_questions_df res); [congruence | simpl; lia].
Qed.

Lemma overall_counts_add_up_sample :
  exists res ov,
    process_student_data Sample.three_subjects = Ok (Some res) /\
    overall_summary res = Some ov /\
    (overall_correct_answers ov + incorrect_answers ov + unattempted_answers ov)%nat
      = 6%nat.
Proof.
  eexists. eexists. split; [vm_compute; reflexivity|].
  split; [vm_compute; reflexivity|].
  edestruct (overall_counts_add_up Sample.three_subjects) as (H & _);
    [vm_compute; reflexivity | vm_compute; reflexivity |].
  rewrite H. reflexivity.
Defined.

End FlatteningMore.

(** ** More on the engine: totals and bounds *)

Section Totals.

Implicit Types (data : json) (res : Analysis) (df rows : list row)
  (key : row -> string) (w : row -> nat).

Lemma groupby_sum w key df :
  sum_list_with (fun kv => sum_list_with w kv.2) (map_to_list (groupby key df))
  = sum_list_with w df.
Proof.
  induction df as [|r df IH].
  { change (groupby key []) with (∅ : gmap string (list row)).
    now rewrite map_to_list_empty. }
  simpl groupby. set (g := groupby key df) in *. set (k := key r).
  destruct (g !! k) as [old|] eqn:E; simpl default.
  - rewrite <- insert_delete_eq.
    rewrite map_to_list_insert by apply lookup_delete_eq.
    rewrite <- (map_to_list_delete g k old E) in IH.
    simpl in *. lia.
  - rewrite map_to_list_insert by exact E. simpl in *. lia.
Qed.

Lemma rows_where_without key (skip k : string) df :
  rows_where key k (filter (fun r => key r ≠ skip) df)
  = if decide (k = skip) then [] else rows_where key k df.
Proof.
  unfold rows_where. induction df as [|r df IH]; [now destruct (decide _)|].
  rewrite !filter_cons.
  destruct (decide (key r ≠ skip)) as [Hr|Hr]; rewrite ?filter_cons, IH;
    destruct (decide (k = skip)) as [Hks|Hk];
    destruct (decide (key r = k)) as [Hrk|Hrk];
    try reflexivity; try congruence.
  apply dec_stable in Hr. congruence.
Qed.

(** Leaving a group out of the groups is grouping without its rows. *)
Lemma groupby_without key (skip : string) df :
  filter (fun kv => kv.1 ≠ skip) (groupby key df)
  = groupby key (filter (fun r => key r ≠ skip) df).
Proof.
  apply map_eq. intros k.
  rewrite map_lookup_filter, !groupby_lookup, rows_where_without.
  destruct (decide (k = skip)) as [->|Hk].
  - destruct (rows_where key skip df); simpl; [reflexivity|].
    now rewrite option_guard_False by (simpl; congruence).
  - destruct (rows_where key k df); simpl; [reflexivity|].
    now rewrite option_guard_True by (simpl; congruence).
Qed.

Lemma sum_over_summaries (proj : GroupSummary -> nat)
    (l : list (string * list row)) :
  sum_list (proj <$> (prod_map id group_summary <$> l).*2)
  = sum_list_with (fun kv => proj (group_summary kv.2)) l.
Proof.
  induction l as [|[k v] l IH]; [reflexivity|].
  rewrite !fmap_cons. cbn [sum_list_with]. rewrite IH. reflexivity.
Qed.

Lemma sum_with_ext {A} (f g : A -> nat) (l : list A) :
  (forall x, f x = g x) -> sum_list_with f l = sum_list_with g l.
Proof. intros E. induction l as [|x l IH]; simpl; [reflexivity | now rewrite E, IH]. Qed.

Lemma length_as_sum rows : length rows = sum_list_with (fun _ => 1%nat) rows.
Proof. induction rows; simpl; lia. Qed.

Lemma count_correct_as_sum rows :
  count_correct rows
  = sum_list_with (fun r => if decide (status r = "Correct") then 1%nat else 0%nat) rows.
Proof.
  unfold count_correct, with_status. induction rows as [|r rows IH]; [reflexivity|].
  rewrite filter_cons. simpl. destruct (decide _); simpl; lia.
Qed.

(** The totals and the correct answers of the groups of a pass add up
    to those of the rows that the pass does not leave out. *)
Lemma grouped_performance_sums key (skip : string) df :
  sum_total_questions (grouped_performance key skip df)
    = length (filter (fun r => key r ≠ skip) df) /\
  sum_correct_answers (grouped_performance key skip df)
    = count_correct (filter (fun r => key r ≠ skip) df).
Proof.
  unfold sum_total_questions, sum_correct_answers.
  destruct (decide (df = [])) as [->|Hdf].
  - unfold grouped_performance. simpl. rewrite map_to_list_empty. auto.
  - assert (E0 : grouped_performance key skip df =
                 group_summary <$>
                   filter (fun kv => kv.1 ≠ skip) (groupby key df))
      by (destruct df; [congruence | reflexivity]).
    rewrite E0, groupby_without, map_to_list_fmap, !sum_over_summaries.
    split.
    + rewrite length_as_sum, <- (groupby_sum _ key).
      apply sum_with_ext. intros [k rows]. simpl. apply length_as_sum.
    + rewrite count_correct_as_sum, <- (groupby_sum _ key).
      apply sum_with_ext. intros [k rows]. simpl.
      rewrite count_eq_status. apply count_correct_as_sum.
Qed.

Lemma flattened_difficulty (r : row) :
  flattened r -> difficulty r ≠ "Unknown Difficulty".
Proof.
  intros (subj & q & raw & Hq & Hr).
  apply typed_row_fields in Hr as (_ & -> & _).
  apply flatten_question_inv in Hq
    as (? & ? & ? & ? & _ & _ & _ & _ & _ & _ & Hd & _).
  destruct (default (JStr "Unknown Difficulty") (question_level q));
    try discriminate Hd.
  injection Hd as <-. apply capitalize_not_sentinel.
Qed.

Lemma filter_all {A} (P : A -> Prop) `{forall x, Decision (P x)} (l : list A) :
  Forall P l -> filter P l = l.
Proof.
  induction 1 as [|x l Hx _ IH]; [reflexivity|].
  now rewrite filter_cons, decide_True, IH by assumption.
Qed.

(** X4: the difficulty groups of a result leave no question out: their
    totals add up to the number of flattened questions and their correct
    answers to the correct answers of the overall summary (a question
    without a level is in the group "Unknown difficulty"); the totals of
    the chapter groups add up to the number of questions that have a
    chapter. *)
Theorem difficulty_groups_cover_all data res :
  process_student_data data = Ok (Some res) ->
  let df := raw_questions_df res in
  sum_total_questions (difficulty_performance res) = length df /\
  sum_correct_answers (difficulty_performance res) = count_correct df /\
  sum_total_questions (chapter_performance res)
    = length (filter (fun r => chapter r ≠ "Unknown Chapter") df) /\
  (forall ov, overall_summary res = Some ov ->
     sum_total_questions (difficulty_performance res) = total_questions_in_test ov /\
     sum_correct_answers (difficulty_performance res) = overall_correct_answers ov).
Proof.
  intros Hres. cbv zeta.
  pose proof (process_student_data_flattened _ _ Hres) as Hfl.
  apply process_student_data_inv in Hres as (_ & Hch & Hdi & _ & _ & _ & _ & Hov).
  assert (Hall : filter (fun r => difficulty r ≠ "Unknown Difficulty")
                   (raw_questions_df res) = raw_questions_df res).
  { apply filter_all. eapply Forall_impl; [exact Hfl|].
    intros r Hr. now apply flattened_difficulty. }
  destruct (grouped_performance_sums difficulty "Unknown Difficulty"
              (raw_questions_df res)) as [Ht Hc].
  destruct (grouped_performance_sums chapter "Unknown Chapter"
              (raw_questions_df res)) as [Htc _].
  rewrite Hall in Ht, Hc.
  rewrite Hch, Hdi. unfold make_chapter_performance, make_difficulty_performance.
  repeat split; try assumption.
  - destruct (Hov ov H) as (ti & (_ & -> & _)%make_overall_fields). exact Ht.
  - destruct (Hov ov H) as (ti & (_ & _ & -> & _)%make_overall_fields). exact Hc.
Qed.

Lemma difficulty_groups_cover_all_sample :
  exists res,
    process_student_data Sample.three_subjects = Ok (Some res) /\
    sum_total_questions (difficulty_performance res) = 6%nat /\
    sum_correct_answers (difficulty_performance res) = 3%nat.
Proof.
  eexists. split; [vm_compute; reflexivity|].
  edestruct (difficulty_groups_cover_all Sample.three_subjects) as (Ht & Hc & _);
    [vm_compute; reflexivity|].
  rewrite Ht, Hc. split; vm_compute; reflexivity.
Defined.

End Totals.

Section Bounds.

Implicit Types (data : json) (res : Analysis) (df rows : list row).

Lemma round_half_even_between (y : Q) (a b : Z) :
  (inject_Z a <= y)%Q -> (y <= inject_Z b)%Q ->
  a <= round_half_even y <= b.
Proof.
  destruct y as [n d]. unfold Qle, round_half_even. simpl.
  rewrite !Z.mul_1_r. intros Ha Hb.
  pose proof (Z.div_mod n (Zpos d) ltac:(lia)) as Hdm.
  pose proof (Z.mod_pos_bound n (Zpos d) ltac:(lia)) as Hm.
  set (f := n / Zpos d) in *. set (m := n mod Zpos d) in *.
  assert (Hf : a <= f) by nia.
  assert (Hfb : f <= b) by nia.
  destruct (Z.ltb_spec (2 * m) (Zpos d)); [lia|].
  assert (Hf1 : f + 1 <= b) by nia.
  destruct (Z.ltb_spec (Zpos d) (2 * m)); [lia|].
  destruct (Z.even f); lia.
Qed.

Lemma round2_percentage (x : Q) : percentage x -> percentage (round2 x).
Proof.
  intros [H0 H1]. unfold percentage, round2. rewrite !Qred_correct.
  destruct (round_half_even_between (x * 100) 0 10000) as [Ha Hb].
  - change (inject_Z 0) with (0 * 100)%Q. now apply Qmult_le_compat_r.
  - change (inject_Z 10000) with (100 * 100)%Q. now apply Qmult_le_compat_r.
  - unfold Qle. simpl. lia.
Qed.

Lemma percent_percentage (c n : nat) :
  (c <= n)%nat -> (0 < n)%nat -> percentage (percent c n).
Proof.
  intros Hc Hn. unfold percentage, percent.
  assert (Hpos : (0 < Qnat n)%Q) by now apply Qnat_pos.
  assert (Hc0 : (0 <= Qnat c)%Q).
  { unfold Qnat. change 0%Q with (inject_Z 0). rewrite <- Zle_Qle. lia. }
  assert (Hcn : (Qnat c <= Qnat n)%Q).
  { unfold Qnat. rewrite <- Zle_Qle. lia. }
  assert (H0 : (0 <= Qnat c / Qnat n)%Q).
  { apply Qle_shift_div_l; [exact Hpos|]. now rewrite Qmult_0_l. }
  assert (H1 : (Qnat c / Qnat n <= 1)%Q).
  { apply Qle_shift_div_r; [exact Hpos|]. now rewrite Qmult_1_l. }
  split.
  - change 0%Q with (0 * 100)%Q. now apply Qmult_le_compat_r.
  - change 100%Q with (1 * 100)%Q at 2. now apply Qmult_le_compat_r.
Qed.

Lemma count_correct_le rows : (count_correct rows <= length rows)%nat.
Proof. unfold count_correct, with_status. apply length_filter. Qed.

Lemma observed_summary_percentage rows :
  rows <> [] -> percentage (accuracy_percent (observed_summary rows)).
Proof.
  intros Hne. simpl. apply round2_percentage, percent_percentage.
  - apply count_correct_le.
  - destruct rows; [congruence | simpl; lia].
Qed.

(** X5: the accuracy of the overall summary and of every chapter,
    difficulty and concept group of a result lies between 0 and 100. *)
Theorem observed_accuracies_are_percentages data res :
  process_student_data data = Ok (Some res) ->
  (forall ov, overall_summary res = Some ov ->
     percentage (overall_accuracy_percent ov)) /\
  (forall k g, chapter_performance res !! k = Some g ->
     percentage (accuracy_percent g)) /\
  (forall k g, difficulty_performance res !! k = Some g ->
     percentage (accuracy_percent g)) /\
  (forall k g, concept_performance res !! k = Some g ->
     percentage (accuracy_percent g)).
Proof.
  intros (_ & Hch & Hdi & Hco & _ & _ & _ & Hov)%process_student_data_inv.
  split; [|split; [|split]].
  - intros ov E. destruct (Hov ov E) as (ti & (Hpos & _ & _ & ->)%make_overall_fields).
    apply round2_percentage, percent_percentage; [apply count_correct_le | exact Hpos].
  - intros k g. rewrite Hch. unfold make_chapter_performance.
    rewrite grouped_performance_lookup. destruct (decide _); [discriminate|].
    destruct (rows_where chapter k _) eqn:E; [discriminate|]. intros [= <-].
    now apply observed_summary_percentage.
  - intros k g. rewrite Hdi. unfold make_difficulty_performance.
    rewrite grouped_performance_lookup. destruct (decide _); [discriminate|].
    destruct (rows_where difficulty k _) eqn:E; [discriminate|]. intros [= <-].
    now apply observed_summary_percentage.
  - intros k g. rewrite Hco, make_concept_performance_lookup.
    destruct (decide _); [discriminate|].
    destruct (rows_listing k _) eqn:E; [discriminate|]. intros [= <-].
    now apply observed_summary_percentage.
Qed.

Lemma observed_accuracies_are_percentages_sample :
  exists res g,
    process_student_data Sample.three_subjects = Ok (Some res) /\
    chapter_performance res !! "Kinematics" = Some g /\
    percentage (accuracy_percent g).
Proof.
  eexists. eexists. split; [vm_compute; reflexivity|].
  split; [vm_compute; reflexivity|].
  edestruct (observed_accuracies_are_percentages Sample.three_subjects)
    as (_ & Hch & _); [vm_compute; reflexivity|].
  apply (Hch "Kinematics"). vm_compute. reflexivity.
Defined.

(** X6: the chapter of a flattened question is the title of the first
    of its chapter entries that has a non-empty title, and "Unknown
    Chapter" when there is none or the list is absent; later chapters are
    not looked at. *)
Theorem flatten_question_first_chapter
    (subj : string) (q_data : json) (raw : raw_row) :
  flatten_question subj q_data = Ok raw ->
  (forall entries, question_chapters q_data = Some (JArr entries) ->
     raw_chapter raw =
     hd (JStr "Unknown Chapter") (List.filter Py.truthy (entry_title <$> entries))) /\
  (question_chapters q_data = None -> raw_chapter raw = JStr "Unknown Chapter").
Proof.
  unfold flatten_question. intros H.
  apply bind_Ok in H as (detail & (items & -> & ->)%get_Ok & H).
  apply bind_Ok in H as (chs & (ditems & Hd & ->)%get_Ok & H).
  apply bind_Ok in H as (chapters & Hchs & H).
  do 11 (apply bind_Ok in H as (? & _ & H)).
  injection H as <-. cbn [raw_chapter].
  unfold question_chapters. cbn [field]. rewrite Hd. cbn [field].
  split.
  - intros entries E. rewrite E in Hchs. unfold titles in Hchs. simpl in Hchs.
    apply bind_Ok in Hchs as (ts & Hts%mapM_titles & [= <-]). subst ts.
    now destruct (List.filter Py.truthy (entry_title <$> entries)).
  - intros E. rewrite E in Hchs. now injection Hchs as <-.
Qed.

Lemma flatten_question_first_chapter_sample :
  let q := JObj [("questionId",
                  JObj [("chapters", JArr [JObj []; JObj [("title", JStr "")];
                                           JObj [("title", JStr "Optics")];
                                           JObj [("title", JStr "Waves")]])])] in
  exists raw, flatten_question "Physics" q = Ok raw /\
              raw_chapter raw = JStr "Optics".
Proof.
  eexists. split; [vm_compute; reflexivity|].
  match goal with |- raw_chapter ?r = _ =>
    edestruct (flatten_question_first_chapter "Physics"
      (JObj [("questionId",
              JObj [("chapters", JArr [JObj []; JObj [("title", JStr "")];
                                       JObj [("title", JStr "Optics")];
                                       JObj [("title", JStr "Waves")]])])]) r)
      as (H & _); [vm_compute; reflexivity|]
  end.
  erewrite H; [|reflexivity]. reflexivity.
Defined.

(** X7: flattening a question succeeds only on the shapes of the data
    model: the question is an object, and its [questionId] and
    [inputValue] are absent or objects and its [level] and [status]
    absent or texts; a null in one of these places makes it raise. *)
Theorem flatten_question_accepts (subj : string) (q_data : json) (raw : raw_row) :
  flatten_question subj q_data = Ok raw ->
  is_object q_data = true /\
  absent_or is_object (field "questionId" q_data) /\
  absent_or is_object (field "inputValue" q_data) /\
  absent_or is_str (question_level q_data) /\
  absent_or is_str (field "status" q_data).
Proof.
  unfold flatten_question. intros H.
  apply bind_Ok in H as (detail & (items & -> & ->)%get_Ok & H).
  apply bind_Ok in H as (chs & (ditems & Hd & ->)%get_Ok & H).
  rewrite Hd in H.
  do 3 (apply bind_Ok in H as (? & _ & H)).
  apply bind_Ok in H as (level & [= <-] & H).
  apply bind_Ok in H as (diff & Hdiff & H).
  do 2 (apply bind_Ok in H as (? & _ & H)).
  apply bind_Ok in H as (iv & [= <-] & H).
  apply bind_Ok in H as (ic & (ivitems & Hiv & _)%get_Ok & H).
  apply bind_Ok in H as (st & [= <-] & H).
  apply bind_Ok in H as (l & Hl & H).
  unfold question_level. cbn [field is_object]. rewrite Hd. cbn [field].
  repeat split.
  - destruct (Py.assoc "questionId" items); simpl in *; [now subst|exact I].
  - destruct (Py.assoc "inputValue" items); simpl in *; [now subst|exact I].
  - destruct (Py.assoc "level" ditems) as [[]|]; simpl in *;
      try discriminate Hdiff; reflexivity || exact I.
  - destruct (Py.assoc "status" items) as [[]|]; simpl in *;
      try discriminate Hl; reflexivity || exact I.
Qed.

Lemma flatten_question_accepts_sample :
  absent_or is_str (question_level Sample.bare_question) /\
  flatten_question "Physics" (JObj [("questionId", JObj [("level", JNull)])])
    = Raise AttributeError.
Proof.
  split; [|reflexivity].
  edestruct (flatten_question_accepts "Chemistry" Sample.bare_question)
    as (_ & _ & _ & H & _); [vm_compute; reflexivity|]. exact H.
Defined.

End Bounds.

(** ** Loading and the first steps of the driver *)

Section Loading.

Implicit Types (data : json) (res : Analysis) (f : file_outcome).

(** X8: the first two steps of the driver give up without an exception
    ([return False]) exactly when [load_data] hands over nothing truthy
    (no file, no JSON, a scalar, an empty array or object, an array whose
    first element is falsy); after a successful load
    [process_student_data] never returns [None], so that the message
    "Failed to process data" is never printed. *)
Theorem driver_gives_up_only_on_load f :
  (load_and_process f = Ok None <-> Py.truthy (load_data f) = false) /\
  (Py.truthy (load_data f) = true ->
   process_student_data (load_data f) <> Ok None).
Proof.
  assert (H2 : Py.truthy (load_data f) = true ->
               process_student_data (load_data f) <> Ok None).
  { intros Ht Hn. apply process_student_data_none in Hn. congruence. }
  split; [|exact H2].
  unfold load_and_process. destruct (Py.truthy (load_data f)) eqn:Ht; simpl.
  - split; [|discriminate]. intros H. exfalso. apply (H2 eq_refl).
    destruct (process_student_data (load_data f)) as [[r|]|e];
      simpl in H; try discriminate. reflexivity.
  - tauto.
Qed.

(** X9: a record that is truthy and is not an object (a text, a number,
    a list) makes [process_student_data] raise [AttributeError]; this is
    what happens to a document that is an array whose first element is
    such a value, whatever follows it. *)
Theorem non_object_record_raises data :
  Py.truthy data = true -> is_object data = false ->
  process_student_data data = Raise AttributeError /\
  (forall rest, load_and_process (Parsed (JArr (data :: rest))) = Raise AttributeError).
Proof.
  intros Ht Ho.
  assert (H : process_student_data data = Raise AttributeError).
  { unfold process_student_data. rewrite Ht.
    destruct data; try discriminate Ho; reflexivity. }
  split; [exact H|]. intros rest. unfold load_and_process. simpl load_data.
  rewrite Ht. simpl. now rewrite H.
Qed.

Lemma non_object_record_raises_sample :
  load_and_process (Parsed (JArr [JArr [Sample.three_subjects]]))
  = Raise AttributeError.
Proof.
  apply (non_object_record_raises (JArr [Sample.three_subjects])); reflexivity.
Defined.

(** X10: for a record that is a non-empty object without a list under
    [sections] (the key is absent or holds something else), the engine
    returns the minimal result, with the student name (default "Valued
    Student"), the test name built from [test.totalMarks] (default "N/A")
    and nothing else, when [test] is absent or an object; when [test] is
    anything else, null included, it raises [AttributeError]. *)
Theorem record_without_section_list (items : list (string * json)) :
  items <> [] ->
  sections_list (JObj items) = None ->
  (absent_or is_object (Py.assoc "test" items) ->
   process_student_data (JObj items) =
   Ok (Some (minimal_result
               (default (JStr "Valued Student") (Py.assoc "student_name" items))
               [Lit "QPT Analysis (Total Marks: ";
                Interp (default (JStr "N/A")
                          (field "totalMarks"
                             (default (JObj []) (Py.assoc "test" items))));
                Lit ")"]))) /\
  (forall v, Py.assoc "test" items = Some v -> is_object v = false ->
     process_student_data (JObj items) = Raise AttributeError).
Proof.
  intros Hne Hsec. split.
  - intros Ht. apply process_student_data_minimal; try assumption.
    destruct (Py.assoc "test" items) as [[]|]; simpl in Ht; try discriminate; eauto.
  - intros v Hv Ho. unfold process_student_data.
    assert (Ht : Py.truthy (JObj items) = true)
      by (destruct items; [congruence | reflexivity]).
    rewrite Ht. simpl. rewrite Hv. simpl.
    destruct v; try discriminate Ho; reflexivity.
Qed.

Lemma record_without_section_list_sample :
  process_student_data (JObj [("student_name", JStr "A"); ("sections", JNull)])
  = Ok (Some (minimal_result (JStr "A")
                [Lit "QPT Analysis (Total Marks: "; Interp (JStr "N/A"); Lit ")"]))
  /\ process_student_data (JObj [("test", JNull)]) = Raise AttributeError.
Proof.
  split.
  - apply (record_without_section_list
             [("student_name", JStr "A"); ("sections", JNull)]);
      [discriminate | reflexivity | exact I].
  - apply (record_without_section_list [("test", JNull)]) with (v := JNull);
      [discriminate | reflexivity | reflexivity | reflexivity].
Defined.



End Loading.

(** ** The time formatters *)

Section Formatters.

#[local] Arguments String.append !_ _ / : simpl nomatch.

Lemma string_of_uint_digits (u : Decimal.uint) :
  all_digits (NilEmpty.string_of_uint u) = true.
Proof. induction u; simpl; auto. Qed.

Lemma dec_nonneg (n : Z) :
  0 <= n ->
  exists u, u <> Decimal.Nil /\ Fmt.dec n = NilEmpty.string_of_uint u /\
            Z.to_int n = Decimal.Pos u.
Proof.
  intros Hn. unfold Fmt.dec. destruct n as [|p|p]; [| |lia].
  - exists (Decimal.D0 Decimal.Nil). repeat split. discriminate.
  - exists (Pos.to_uint p).
    pose proof (DecimalPos.Unsigned.to_uint_nonnil p) as Hnil.
    repeat split; [exact Hnil|]. simpl.
    unfold NilZero.string_of_uint. now destruct (Pos.to_uint p).
Qed.

Lemma dec_digits (n : Z) : 0 <= n -> all_digits (Fmt.dec n) = true.
Proof.
  intros (u & _ & -> & _)%dec_nonneg. apply string_of_uint_digits.
Qed.


Lemma dec_inj (n m : Z) : 0 <= n -> 0 <= m -> Fmt.dec n = Fmt.dec m -> n = m.
Proof.
  intros (u & _ & -> & Hu)%dec_nonneg (v & _ & -> & Hv)%dec_nonneg E.
  apply (f_equal NilEmpty.uint_of_string) in E.
  rewrite !NilEmpty.usu in E. injection E as <-.
  apply DecimalZ.to_int_inj. congruence.
Qed.

(** A run of digits ends where the first other character stands. *)
Lemma digits_then_mark (s1 s2 : string) (c1 c2 : ascii) (r1 r2 : string) :
  all_digits s1 = true -> all_digits s2 = true ->
  Py.is_digit c1 = false -> Py.is_digit c2 = false ->
  s1 +:+ String c1 r1 = s2 +:+ String c2 r2 ->
  s1 = s2 /\ String c1 r1 = String c2 r2.
Proof.
  revert s2. induction s1 as [|a s1 IH]; intros [|b s2]; simpl;
    intros H1 H2 Hc1 Hc2 E.
  - auto.
  - injection E as -> _. apply andb_true_iff in H2 as [H2 _]. congruence.
  - injection E as -> _. apply andb_true_iff in H1 as [H1 _]. congruence.
  - injection E as -> E.
    apply andb_true_iff in H1 as [_ H1]. apply andb_true_iff in H2 as [_ H2].
    destruct (IH s2 H1 H2 Hc1 Hc2 E) as [-> ->]. auto.
Qed.

Lemma length_app_str (a b : string) :
  String.length (a +:+ b) = (String.length a + String.length b)%nat.
Proof. induction a as [|c a IH]; simpl; [reflexivity | now rewrite IH]. Qed.

Lemma div_zero_small (n : Z) : 0 <= n -> (0 <? n / 60) = false -> n = n mod 60.
Proof.
  intros Hn H. apply Z.ltb_ge in H.
  pose proof (Z.div_pos n 60 Hn ltac:(lia)).
  pose proof (Z.div_mod n 60 ltac:(lia)). lia.
Qed.

(** Different whole numbers of seconds are never written alike. *)
Lemma minutes_and_seconds_inj (ca cb : ascii) (ra rb : string) (n m : Z) :
  Py.is_digit ca = false -> Py.is_digit cb = false ->
  0 <= n -> 0 <= m ->
  minutes_and_seconds (String ca ra) (String cb rb) n
  = minutes_and_seconds (String ca ra) (String cb rb) m ->
  n = m.
Proof.
  intros Ha Hb Hn Hm. unfold minutes_and_seconds.
  pose proof (Z.mod_pos_bound n 60 ltac:(lia)) as Bn.
  pose proof (Z.mod_pos_bound m 60 ltac:(lia)) as Bm.
  pose proof (Z.div_pos n 60 Hn ltac:(lia)) as Dn.
  pose proof (Z.div_pos m 60 Hm ltac:(lia)) as Dm.
  destruct (0 <? n / 60) eqn:En; destruct (0 <? m / 60) eqn:Em; intros E.
  - apply digits_then_mark in E as [E1 E2];
      try assumption; try (apply dec_digits; lia).
    apply dec_inj in E1; try lia.
    injection E2 as E2. apply String.app_inj in E2.
    apply digits_then_mark in E2 as [E2 _];
      try assumption; try (apply dec_digits; lia).
    apply dec_inj in E2; try lia.
    rewrite (Z.div_mod n 60), (Z.div_mod m 60) by lia. congruence.
  - exfalso. apply digits_then_mark in E as [_ E];
      try assumption; try (apply dec_digits; lia).
    apply (f_equal String.length) in E. simpl in E.
    rewrite !length_app_str in E. simpl in E. lia.
  - exfalso. apply digits_then_mark in E as [_ E];
      try assumption; try (apply dec_digits; lia).
    apply (f_equal String.length) in E. simpl in E.
    rewrite !length_app_str in E. simpl in E. lia.
  - apply digits_then_mark in E as [E _];
      try assumption; try (apply dec_digits; lia).
    apply dec_inj in E; try lia.
    rewrite (div_zero_small n), (div_zero_small m) by assumption. exact E.
Qed.


Lemma py_int_nonneg (x : Q) : (0 <= x)%Q -> 0 <= Fmt.py_int x.
Proof.
  destruct x as [n d]. unfold Qle, Fmt.py_int. simpl. rewrite Z.mul_1_r.
  intros H. apply Z.quot_pos; lia.
Qed.

Lemma Qltb_false (x : Q) : Fmt.Qltb x 0 = false <-> (0 <= x)%Q.
Proof.
  unfold Fmt.Qltb. rewrite negb_false_iff. apply Qle_bool_iff.
Qed.

(** The two formatters on a duration. *)
Lemma format_duration (v : json) (x : Q) :
  duration v x ->
  Fmt.format_time_for_llm v = minutes_and_seconds " min " " sec" (Fmt.py_int x) /\
  Fmt.format_seconds_for_pdf v = minutes_and_seconds "m " "s" (Fmt.py_int x).
Proof.
  intros [Hv Hx]. unfold Fmt.format_time_for_llm, Fmt.format_seconds_for_pdf.
  rewrite Hv. apply Qltb_false in Hx as Hb. rewrite Hb.
  pose proof (py_int_nonneg x Hx) as Hn.
  pose proof (Z.mod_pos_bound (Fmt.py_int x) 60 ltac:(lia)) as Bn.
  unfold minutes_and_seconds. cbv zeta.
  assert (Hr : (0 <=? Fmt.py_int x mod 60) = true) by (apply Z.leb_le; lia).
  rewrite Hr. split; now destruct (0 <? Fmt.py_int x / 60).
Qed.


(** X13: for either formatter, two durations are written alike exactly
    when they have the same whole number of seconds: the fraction of a
    second is dropped, and nothing else is lost. *)
Theorem formatters_keep_whole_seconds (v w : json) (x y : Q) :
  duration v x -> duration w y ->
  (Fmt.format_time_for_llm v = Fmt.format_time_for_llm w
   <-> Fmt.py_int x = Fmt.py_int y) /\
  (Fmt.format_seconds_for_pdf v = Fmt.format_seconds_for_pdf w
   <-> Fmt.py_int x = Fmt.py_int y).
Proof.
  intros Hv Hw.
  destruct (format_duration v x Hv) as [-> ->].
  destruct (format_duration w y Hw) as [-> ->].
  pose proof (py_int_nonneg x (proj2 Hv)) as Hx.
  pose proof (py_int_nonneg y (proj2 Hw)) as Hy.
  split; (split; [|now intros ->]).
  - apply (minutes_and_seconds_inj " " " " "min " "sec"); auto.
  - apply (minutes_and_seconds_inj "m" "s" " " ""); auto.
Qed.

Lemma formatters_keep_whole_seconds_sample :
  Fmt.format_time_for_llm (JNum (1667 # 100)) = Fmt.format_time_for_llm (JNum 16)
  /\ Fmt.format_seconds_for_pdf (JNum 125) = "2m 5s".
Proof.
  split; [|reflexivity].
  apply (formatters_keep_whole_seconds (JNum (1667 # 100)) (JNum 16)
           (1667 # 100) 16); try reflexivity;
    split; try reflexivity; unfold Qle; simpl; lia.
Defined.

End Formatters.

(** ** The highlights of the feedback text and the chapter table *)

Section Highlights.

Import Report.

Implicit Types (d l : perf_dict) (x y : string * GroupSummary).

Lemma insert_by_accuracy_perm x l : insert_by_accuracy x l ≡ₚ x :: l.
Proof.
  induction l as [|y l IH]; simpl; [reflexivity|].
  destruct (Qle_bool _ _); [reflexivity|].
  rewrite IH. apply Permutation_swap.
Qed.

Lemma sorted_by_accuracy_perm d : sorted_by_accuracy d ≡ₚ d.
Proof.
  induction d as [|x d IH]; simpl; [reflexivity|].
  now rewrite insert_by_accuracy_perm, IH.
Qed.

Lemma by_accuracy_trans x y z : by_accuracy x y -> by_accuracy y z -> by_accuracy x z.
Proof. unfold by_accuracy. rewrite !Qle_bool_iff. apply Qle_trans. Qed.

Lemma by_accuracy_total x y : Qle_bool (accuracy_of x) (accuracy_of y) = false ->
  by_accuracy y x.
Proof.
  unfold by_accuracy. intros H. apply Qle_bool_iff.
  destruct (Qlt_le_dec (accuracy_of y) (accuracy_of x)) as [Hlt|Hle].
  - now apply Qlt_le_weak.
  - apply Qle_bool_iff in Hle. congruence.
Qed.

Lemma insert_by_accuracy_sorted x l :
  ascending l -> ascending (insert_by_accuracy x l).
Proof.
  unfold ascending. induction 1 as [|y l Hl IH Hy]; simpl.
  - repeat constructor.
  - destruct (Qle_bool (accuracy_of x) (accuracy_of y)) eqn:E.
    + constructor; [now constructor|]. constructor; [exact E|].
      eapply Forall_impl; [exact Hy|]. intros z Hz. now apply (by_accuracy_trans x y z).
    + constructor; [exact IH|].
      rewrite insert_by_accuracy_perm. constructor; [now apply by_accuracy_total | exact Hy].
Qed.

Lemma sorted_by_accuracy_ascending d : ascending (sorted_by_accuracy d).
Proof.
  induction d as [|x d IH]; simpl; [constructor|].
  now apply insert_by_accuracy_sorted.
Qed.

Lemma count_below_perm (t : Q) d l : d ≡ₚ l -> count_below t d = count_below t l.
Proof.
  unfold count_below. induction 1; simpl; repeat destruct (below t _); simpl; congruence.
Qed.

(** In ascending order, nothing after an item that is not below the
    threshold is below it. *)
Lemma ascending_not_below (t : Q) x l :
  ascending (x :: l) -> below t x = false -> count_below t l = 0%nat.
Proof.
  unfold ascending, count_below, below, Fmt.Qltb. intros Hs Hx.
  apply StronglySorted_inv in Hs as [_ Hall].
  apply negb_false_iff, Qle_bool_iff in Hx.
  induction Hall as [|y l Hy _ IH]; [reflexivity|]. simpl.
  assert (E : negb (Qle_bool t (accuracy_of y)) = false).
  { apply negb_false_iff, Qle_bool_iff. apply Qle_bool_iff in Hy.
    now apply (Qle_trans _ (accuracy_of x)). }
  rewrite E. exact IH.
Qed.

Lemma count_below_cons (t : Q) x l :
  count_below t (x :: l)
  = ((if below t x then 1 else 0) + count_below t l)%nat.
Proof. unfold count_below. simpl. now destruct (below t x). Qed.

Lemma llm_highlight_loop_cons x l (shown : nat) :
  llm_highlight_loop (x :: l) shown =
  if ((if (shown <? 5)%nat || below 60 x then 5 <=? S shown else 5 <=? shown)%nat
      && negb (below 60 x))
  then (if (shown <? 5)%nat || below 60 x then [x] else [])
  else ((if (shown <? 5)%nat || below 60 x then [x] else [])
        ++ llm_highlight_loop l
             (if (shown <? 5)%nat || below 60 x then S shown else shown))%list.
Proof. unfold below. simpl. now destruct (_ || _). Qed.

Lemma pdf_chapter_loop_cons x l (shown : nat) :
  pdf_chapter_loop (x :: l) shown =
  if (if (shown <? 7)%nat || below 65 x then 10 <=? S shown else 10 <=? shown)%nat
  then (if (shown <? 7)%nat || below 65 x then [x] else [])
  else ((if (shown <? 7)%nat || below 65 x then [x] else [])
        ++ pdf_chapter_loop l
             (if (shown <? 7)%nat || below 65 x then S shown else shown))%list.
Proof. unfold below. simpl. now destruct (_ || _). Qed.

(** The loop of the feedback text shows a first part of the sorted
    items: five of them, and more as long as they are below 60. *)
Lemma llm_highlight_loop_take l (shown : nat) :
  ascending l ->
  llm_highlight_loop l shown = take (max (5 - shown) (count_below 60 l)) l.
Proof.
  revert shown. induction l as [|x l IH]; intros shown Hs.
  - now rewrite take_nil.
  - pose proof (StronglySorted_inv Hs) as [Hl _].
    rewrite llm_highlight_loop_cons, count_below_cons.
    destruct (below 60 x) eqn:Ex.
    + rewrite orb_true_r, andb_false_r. rewrite (IH _ Hl).
      replace (max (5 - shown) (1 + count_below 60 l))
        with (S (max (5 - S shown) (count_below 60 l))) by lia.
      reflexivity.
    + rewrite (ascending_not_below 60 x l Hs Ex).
      rewrite orb_false_r, andb_true_r.
      destruct (Nat.ltb_spec shown 5) as [H5|H5].
      * destruct (Nat.leb_spec 5 (S shown)) as [H6|H6].
        -- replace (max (5 - shown) (0 + 0)) with 1%nat by lia.
           cbn [take]. now rewrite take_0.
        -- rewrite (IH _ Hl), (ascending_not_below 60 x l Hs Ex).
           replace (max (5 - shown) (0 + 0))
             with (S (max (5 - S shown) 0)) by lia.
           reflexivity.
      * destruct (Nat.leb_spec 5 shown) as [H6|H6]; [|lia].
        replace (max (5 - shown) (0 + 0)) with 0%nat by lia. reflexivity.
Qed.

(** The loop of the chapter table shows a first part of the sorted
    items: seven of them, more as long as they are below 65, ten at
    most. *)
Lemma pdf_chapter_loop_take l (shown : nat) :
  ascending l -> (shown < 10)%nat ->
  pdf_chapter_loop l shown
  = take (min (10 - shown) (max (7 - shown) (count_below 65 l))) l.
Proof.
  revert shown. induction l as [|x l IH]; intros shown Hs Hlt.
  - now rewrite take_nil.
  - pose proof (StronglySorted_inv Hs) as [Hl _].
    rewrite pdf_chapter_loop_cons, count_below_cons.
    destruct (below 65 x) eqn:Ex.
    + rewrite orb_true_r.
      destruct (Nat.leb_spec 10 (S shown)) as [H10|H10].
      * replace (min (10 - shown) (max (7 - shown) (1 + count_below 65 l)))
          with 1%nat by lia.
        cbn [take]. now rewrite take_0.
      * rewrite (IH _ Hl H10).
        replace (min (10 - shown) (max (7 - shown) (1 + count_below 65 l)))
          with (S (min (10 - S shown) (max (7 - S shown) (count_below 65 l))))
          by lia.
        reflexivity.
    + rewrite (ascending_not_below 65 x l Hs Ex). rewrite orb_false_r.
      destruct (Nat.ltb_spec shown 7) as [H7|H7].
      * destruct (Nat.leb_spec 10 (S shown)) as [H10|H10]; [lia|].
        rewrite (IH _ Hl H10), (ascending_not_below 65 x l Hs Ex).
        replace (min (10 - shown) (max (7 - shown) (0 + 0)))
          with (S (min (10 - S shown) (max (7 - S shown) 0))) by lia.
        reflexivity.
      * destruct (Nat.leb_spec 10 shown) as [H10|H10]; [lia|].
        rewrite (IH _ Hl Hlt), (ascending_not_below 65 x l Hs Ex).
        replace (min (10 - shown) (max (7 - shown) (0 + 0))) with 0%nat by lia.
        replace (min (10 - shown) (max (7 - shown) 0)) with 0%nat by lia.
        reflexivity.
Qed.

(** In ascending order, a first part that is long enough holds every
    item below the threshold. *)
Lemma below_in_take (t : Q) l (n : nat) x :
  ascending l -> (count_below t l <= n)%nat ->
  x ∈ l -> below t x = true -> x ∈ take n l.
Proof.
  revert n. induction l as [|y l IH]; intros n Hs Hn Hin Hx.
  - inversion Hin.
  - pose proof (StronglySorted_inv Hs) as [Hl _].
    rewrite count_below_cons in Hn.
    destruct (below t y) eqn:Ey.
    + destruct n as [|n]; [lia|]. simpl.
      apply elem_of_cons in Hin as [->|Hin]; [left|right].
      apply IH; try assumption. lia.
    + apply elem_of_cons in Hin as [->|Hin]; [congruence|].
      exfalso. pose proof (ascending_not_below t y l Hs Ey) as H0.
      unfold count_below in H0.
      assert (Hf : x ∈ List.filter (below t) l).
      { apply list_elem_of_In, filter_In. split; [now apply list_elem_of_In | exact Hx]. }
      destruct (List.filter (below t) l); [inversion Hf | discriminate].
Qed.

(** X14: the chapters (and likewise the concepts) shown in the text
    sent to the model are a first part of the dictionary sorted by
    ascending accuracy: five items, or as many as are below 60 percent
    when these are more; so every item below 60 percent is shown, and
    at least one item is shown whenever the dictionary is not empty (the
    line "No specific chapters highlighted" is never written). *)
Theorem llm_highlights_are_the_weakest d :
  llm_highlights d = take (max 5 (count_below 60 d)) (sorted_by_accuracy d) /\
  sorted_by_accuracy d ≡ₚ d /\
  ascending (sorted_by_accuracy d) /\
  (forall x, x ∈ d -> below 60 x = true -> x ∈ llm_highlights d) /\
  (d <> [] -> llm_highlights d <> []).
Proof.
  pose proof (sorted_by_accuracy_perm d) as Hp.
  pose proof (sorted_by_accuracy_ascending d) as Hs.
  assert (E : llm_highlights d
              = take (max 5 (count_below 60 d)) (sorted_by_accuracy d)).
  { unfold llm_highlights. rewrite llm_highlight_loop_take by assumption.
    now rewrite (count_below_perm 60 _ _ Hp). }
  repeat split; try assumption.
  - intros x Hx Hb. rewrite E. apply (below_in_take 60); try assumption.
    + rewrite (count_below_perm 60 _ _ Hp). lia.
    + now rewrite Hp.
  - intros Hne. rewrite E.
    destruct (sorted_by_accuracy d) as [|y l] eqn:El.
    + apply Permutation_nil_l in Hp. congruence.
    + replace (max 5 (count_below 60 d)) with (S (max 4 (count_below 60 d - 1)))
        by lia. discriminate.
Qed.

(** X15: the chapter table of the report holds a first part of the
    chapters sorted by ascending accuracy: seven rows, or as many as are
    below 65 percent when these are more, and never more than ten. *)
Theorem pdf_chapter_rows_are_the_weakest d :
  pdf_chapter_rows d
  = take (min 10 (max 7 (count_below 65 d))) (sorted_by_accuracy d) /\
  (length (pdf_chapter_rows d) <= 10)%nat /\
  (length d <= 7 -> pdf_chapter_rows d ≡ₚ d)%nat.
Proof.
  pose proof (sorted_by_accuracy_perm d) as Hp.
  pose proof (sorted_by_accuracy_ascending d) as Hs.
  assert (E : pdf_chapter_rows d
              = take (min 10 (max 7 (count_below 65 d))) (sorted_by_accuracy d)).
  { unfold pdf_chapter_rows. rewrite pdf_chapter_loop_take by (assumption || lia).
    now rewrite (count_below_perm 65 _ _ Hp). }
  split; [exact E|]. split.
  - rewrite E, length_take. lia.
  - intros Hlen. rewrite E, take_ge; [exact Hp|].
    rewrite Hp. lia.
Qed.

End Highlights.

(** ** The difficulty table of the report *)

Section Levels.

Import Report.

Implicit Types (d : perf_dict) (k : string) (acc keys : list string).

Lemma has_key_elem k d : has_key k d = true <-> k ∈ d.*1.
Proof.
  unfold has_key. rewrite existsb_exists. split.
  - intros ([k' v] & Hin & E%String.eqb_eq). simpl in E. subst k'.
    apply list_elem_of_fmap. exists (k, v). split; [reflexivity|].
    now apply list_elem_of_In.
  - intros ([k' v] & -> & Hin)%list_elem_of_fmap. exists (k', v).
    split; [now apply list_elem_of_In | apply String.eqb_refl].
Qed.

Lemma in_list_elem k acc : in_list k acc = true <-> k ∈ acc.
Proof.
  unfold in_list. rewrite existsb_exists. split.
  - intros (k' & Hin & ->%String.eqb_eq). now apply list_elem_of_In.
  - intros Hin. exists k. split; [now apply list_elem_of_In | apply String.eqb_refl].
Qed.

Lemma in_list_false k acc : in_list k acc = false <-> k ∉ acc.
Proof.
  rewrite <- in_list_elem. destruct (in_list k acc); split; congruence.
Qed.

(** The loop over the four standard levels gives distinct keys of the
    dictionary. *)
Lemma main_levels_spec d :
  let main := foldl (main_level_step d) [] ["Easy"; "Medium"; "Hard"; "Tough"] in
  NoDup main /\ Forall (fun k => has_key k d = true) main.
Proof.
  cbv zeta. cbn [foldl]. unfold main_level_step.
  destruct (has_key "Easy" d) eqn:E1; [|destruct (has_key (Py.lower "Easy") d) eqn:E1'];
  (destruct (has_key "Medium" d) eqn:E2;
     [|destruct (has_key (Py.lower "Medium") d) eqn:E2']);
  (destruct (has_key "Hard" d) eqn:E3;
     [|destruct (has_key (Py.lower "Hard") d) eqn:E3']);
  (destruct (has_key "Tough" d) eqn:E4;
     [|destruct (has_key (Py.lower "Tough") d) eqn:E4']);
  (split; [apply (bool_decide_unpack _); vm_compute; exact I
          | simpl; repeat constructor; assumption]).
Qed.

Lemma other_level_step_cases acc k :
  (other_level_step acc k = acc /\ (k ∈ acc \/ Py.capitalize k ∈ acc)) \/
  (other_level_step acc k = (acc ++ [k])%list /\ k ∉ acc).
Proof.
  unfold other_level_step.
  destruct (in_list k acc) eqn:E1; simpl.
  - left. split; [reflexivity|]. left. now apply in_list_elem.
  - destruct (in_list (Py.capitalize k) acc) eqn:E2; simpl.
    + left. split; [reflexivity|]. right. now apply in_list_elem.
    + right. split; [reflexivity|]. now apply in_list_false.
Qed.

Lemma other_levels_spec (P : string -> Prop) keys acc :
  NoDup acc -> Forall P acc -> Forall P keys ->
  NoDup (foldl other_level_step acc keys) /\
  Forall P (foldl other_level_step acc keys).
Proof.
  revert acc. induction keys as [|k keys IH]; intros acc Hnd Hacc Hkeys; [auto|].
  apply Forall_cons in Hkeys as [Hk Hkeys]. simpl foldl.
  destruct (other_level_step_cases acc k) as [[-> _]|[-> Hnin]].
  - now apply IH.
  - apply IH; try assumption.
    + apply NoDup_app. repeat split; try assumption.
      * intros x Hx Hin. apply elem_of_cons in Hin as [->|Hin];
          [contradiction | inversion Hin].
      * apply NoDup_singleton.
    + apply Forall_app. split; [assumption | now constructor].
Qed.



Lemma index_has_key d k :
  has_key k d = true -> exists g, index d k = Ok g.
Proof.
  unfold has_key. induction d as [|[k' v] d IH]; simpl; [discriminate|].
  destruct (String.eqb k k'); [eauto | exact IH].
Qed.

Lemma ordered_levels_spec d :
  NoDup (ordered_levels d) /\
  Forall (fun k => has_key k d = true) (ordered_levels d).
Proof.
  unfold ordered_levels. destruct (main_levels_spec d) as [Hnd Hall].
  apply other_levels_spec; try assumption.
  apply Forall_forall. intros k Hk. now apply has_key_elem.
Qed.

Lemma difficulty_rows_Ok d :
  exists rows, difficulty_rows d = Ok rows /\
               rows.*1 = Py.capitalize <$> ordered_levels d.
Proof.
  destruct (ordered_levels_spec d) as [_ Hall].
  unfold difficulty_rows. induction Hall as [|k l Hk _ IH]; simpl.
  - exists []. auto.
  - destruct (index_has_key d k Hk) as [g ->]. simpl.
    destruct IH as (rows & -> & E). simpl.
    exists ((Py.capitalize k, g) :: rows). split; [reflexivity|].
    rewrite !fmap_cons. simpl. now f_equal.
Qed.

(** X16: the levels of the difficulty table are distinct keys of the
    dictionary, whatever its keys are, so that reading
    [difficulty_perf[lvl]] for each of them never raises [KeyError] and
    the table has one row for each level. *)
Theorem difficulty_rows_never_fail d :
  NoDup (ordered_levels d) /\
  (forall k, k ∈ ordered_levels d -> k ∈ d.*1) /\
  exists rows, difficulty_rows d = Ok rows /\
               rows.*1 = Py.capitalize <$> ordered_levels d.
Proof.
  destruct (ordered_levels_spec d) as [Hnd Hall].
  split; [exact Hnd|]. split; [|apply difficulty_rows_Ok].
  intros k Hk. apply has_key_elem. rewrite Forall_forall in Hall. now apply Hall.
Qed.






End Levels.

(** ** The text of [generate_feedback] and the checks made on it *)

Section FeedbackText.

Import Feedback.

#[local] Arguments String.append !_ _ / : simpl nomatch.

Implicit Types (model : option (string -> string -> gemini_outcome))
  (call : string -> string -> gemini_outcome) (s : string).

Lemma strip_starts_nonspace (c : ascii) (r : string) :
  is_space c = false -> strip (String c r) <> "".
Proof.
  intros Hc. unfold strip. simpl. rewrite Hc. simpl. rewrite Hc. discriminate.
Qed.

Lemma strip_empty_text s : strip s <> "" -> s <> "".
Proof. intros H ->. now apply H. Qed.

Lemma nonempty_true s : nonempty s = true <-> s <> "".
Proof.
  unfold nonempty. rewrite negb_true_iff. split.
  - intros H ->. discriminate H.
  - intros H. apply String.eqb_neq. exact H.
Qed.

Lemma failure_text_prefix (message : string) :
  String.prefix "Error generating feedback: " (failure_text message) = true.
Proof.
  unfold failure_text.
  destruct (_ || _); [reflexivity|]. destruct (_ || _); reflexivity.
Qed.

Lemma failure_text_starts (message : string) :
  exists r, failure_text message = String "E" (String "r" (String "r" (String "o"
              (String "r" (String " " r))))).
Proof.
  unfold failure_text.
  destruct (_ || _); [eexists; reflexivity|].
  destruct (_ || _); eexists; reflexivity.
Qed.

(** Every text of [generate_feedback] starts with a character that is
    not white space, or is a text that the function has found not
    blank. *)
Lemma generate_feedback_not_blank model (data name : string) :
  strip (generate_feedback model data name) <> "".
Proof.
  unfold generate_feedback.
  destruct model as [call|]; [|now apply strip_starts_nonspace].
  destruct (_ || _); [now apply strip_starts_nonspace|].
  destruct (call data name) as [reason| |texts|message].
  - simpl. now apply strip_starts_nonspace.
  - now apply strip_starts_nonspace.
  - cbv zeta. destruct (nonempty (strip _)) eqn:E; simpl.
    + now apply nonempty_true.
    + now apply strip_starts_nonspace.
  - destruct (failure_text_starts message) as [r ->].
    now apply strip_starts_nonspace.
Qed.

(** X18: whatever the configuration, the arguments and the outcome of
    the call, [generate_feedback] returns a text that is not empty and not
    blank; the report therefore decides between feedback and warning on
    the prefix "Error:" alone. *)
Theorem feedback_text_never_blank model (data name : string) :
  let text := generate_feedback model data name in
  strip text <> "" /\ text <> "" /\
  rendered_as_feedback text = negb (reported_as_failure text).
Proof.
  cbv zeta. pose proof (generate_feedback_not_blank model data name) as H.
  split; [exact H|]. apply strip_empty_text in H. split; [exact H|].
  unfold rendered_as_feedback, reported_as_failure.
  apply nonempty_true in H. now rewrite H.
Qed.

(** X19: when the call to the model raises, the text returned starts
    with "Error generating feedback: " and not with "Error:"; the check
    [startswith("Error:")] of the driver does not see a failure, and the
    report lays the text out as feedback instead of the warning. *)
Theorem raised_call_passes_for_feedback call (data name message : string) :
  data <> "" ->
  data <> "No data available to format for LLM." ->
  call data name = Failed message ->
  let text := generate_feedback (Some call) data name in
  String.prefix "Error generating feedback: " text = true /\
  reported_as_failure text = false /\
  rendered_as_feedback text = true.
Proof.
  intros Hne Hno Hcall. cbv zeta. unfold generate_feedback.
  apply nonempty_true in Hne. rewrite Hne.
  apply String.eqb_neq in Hno. rewrite Hno, Hcall. simpl.
  split; [apply failure_text_prefix|].
  destruct (failure_text_starts message) as [r E].
  unfold reported_as_failure, rendered_as_feedback. rewrite E. auto.
Qed.

Lemma raised_call_passes_for_feedback_sample :
  rendered_as_feedback
    (generate_feedback (Some (fun _ _ => Failed "504 Deadline Exceeded"))
       "Student Performance Analysis:" "A") = true.
Proof.
  apply (raised_call_passes_for_feedback
           (fun _ _ => Failed "504 Deadline Exceeded")
           "Student Performance Analysis:" "A" "504 Deadline Exceeded");
    [discriminate | discriminate | reflexivity].
Defined.

(** X20: every other failure of [generate_feedback] (no client, no data
    text or the text "No data available to format for LLM.", a blocked
    prompt, a response without content, a blank text) gives a text that
    starts with "Error:": the driver reports it and the report prints the
    warning. *)
Theorem other_failures_are_reported model (data name : string) :
  match model with
  | None => True
  | Some call =>
      data = "" \/ data = "No data available to format for LLM." \/
      match call data name with
      | Blocked _ | NoContent => True
      | Parts texts => strip (join (List.filter nonempty texts)) = ""
      | Failed _ => False
      end
  end ->
  let text := generate_feedback model data name in
  reported_as_failure text = true /\ rendered_as_feedback text = false.
Proof.
  intros H. cbv zeta.
  assert (E : reported_as_failure (generate_feedback model data name) = true).
  { unfold generate_feedback. destruct model as [call|]; [|reflexivity].
    destruct (negb (nonempty data)
              || String.eqb data "No data available to format for LLM.") eqn:Eg;
      [reflexivity|].
    apply orb_false_iff in Eg as [E1 E2]. apply negb_false_iff, nonempty_true in E1.
    apply String.eqb_neq in E2.
    destruct H as [H|[H|H]]; try contradiction.
    destruct (call data name) as [reason| |texts|message]; try reflexivity.
    - cbv zeta. rewrite H. reflexivity.
    - contradiction. }
  split; [exact E|]. unfold rendered_as_feedback.
  unfold reported_as_failure in E. rewrite E. apply andb_false_r.
Qed.

Lemma other_failures_are_reported_sample :
  reported_as_failure
    (generate_feedback (Some (fun _ _ => Parts [""; "  "]))
       "Student Performance Analysis:" "A") = true.
Proof.
  apply (other_failures_are_reported (Some (fun _ _ => Parts [""; "  "]))
           "Student Performance Analysis:" "A").
  right. right. reflexivity.
Defined.

End FeedbackText.
